(** * CTCL gene explorer: a shallow embedding of [app.py]

    The script is a Streamlit page that is re-executed top to bottom on
    every interaction.  One execution (a render pass) is modelled as a
    computation in a small state-and-exception monad whose state holds the
    elements emitted so far and the session dictionary.  Library calls
    (scanpy, pandas, numpy, scipy, streamlit) are modelled by their
    documented behaviour on the values the script hands them; whether the
    plotting stack draws a figure or raises is a parameter of a pass.

    Python floats are IEEE binary64 and are modelled by Rocq's primitive
    floats, Python dictionaries by [gmap], Python strings by [string]. *)

From Stdlib Require Import Floats ZArith NArith Ascii String List Bool Lia.
From Stdlib Require Import DecimalString.
From stdpp Require Import gmap strings list.

Set Warnings "-inexact-float".

Local Open Scope string_scope.
Local Open Scope list_scope.

(* ================================================================== *)
(** * Python strings *)
(* ================================================================== *)

Module PyStr.

(** An ASCII lowercase letter, [a..z]. *)
Definition is_lower_char (c : ascii) : bool :=
  let n := N_of_ascii c in (97 <=? n)%N && (n <=? 122)%N.

(** An ASCII uppercase letter, [A..Z]. *)
Definition is_upper_char (c : ascii) : bool :=
  let n := N_of_ascii c in (65 <=? n)%N && (n <=? 90)%N.

Definition is_ascii_char (c : ascii) : bool := (N_of_ascii c <? 128)%N.

(** [str.upper] on an ASCII character: [a..z] go to [A..Z], every other
    ASCII character is left as it is. *)
Definition upper_char (c : ascii) : ascii :=
  if is_lower_char c then ascii_of_N (N_of_ascii c - 32) else c.

Definition lower_char (c : ascii) : ascii :=
  if is_upper_char c then ascii_of_N (N_of_ascii c + 32) else c.

(** The two bytes of the small sharp s (U+00DF) in UTF-8. *)
Definition byte_C3 : ascii := ascii_of_N 195.
Definition byte_9F : ascii := ascii_of_N 159.

(** [str.upper] on UTF-8 text, read byte by byte; [pending] says that the
    byte C3 has been read and not written yet.  ASCII letters are
    uppercased and the small sharp s becomes SS (one character becomes
    two); every other character is written as it is.  Python also maps the
    other lowercase letters outside ASCII; those mappings are not part of
    this model, and what is proved from the value of [upper] is proved for
    ASCII text or for the sharp s. *)
Fixpoint upper_from (pending : bool) (s : string) : string :=
  match s with
  | EmptyString => if pending then String byte_C3 EmptyString else EmptyString
  | String c s' =>
      if pending && Ascii.eqb c byte_9F then
        String "S" (String "S" (upper_from false s'))
      else
        (if pending then String byte_C3 EmptyString else EmptyString) ++
        (if Ascii.eqb c byte_C3 then upper_from true s'
         else String (upper_char c) (upper_from false s'))
  end.

Definition upper (s : string) : string := upper_from false s.

(** Every character of [s] is ASCII. *)
Fixpoint is_ascii (s : string) : bool :=
  match s with
  | EmptyString => true
  | String c s' => is_ascii_char c && is_ascii s'
  end.

(** Some character of [s] is an ASCII lowercase letter. *)
Fixpoint has_ascii_lower (s : string) : bool :=
  match s with
  | EmptyString => false
  | String c s' => is_lower_char c || has_ascii_lower s'
  end.

(** Two texts differ only in letter case: character by character they are
    equal up to the case of ASCII letters, and the small sharp s (U+00DF)
    and the capital sharp s (U+1E9E) stand for each other. *)
Inductive same_up_to_case : string -> string -> Prop :=
| case_nil : same_up_to_case EmptyString EmptyString
| case_char c d s t :
    lower_char c = lower_char d -> same_up_to_case s t ->
    same_up_to_case (String c s) (String d t)
| case_sharp_s_small s t :
    same_up_to_case s t -> same_up_to_case ("ß" ++ s) ("ẞ" ++ t)
| case_sharp_s_capital s t :
    same_up_to_case s t -> same_up_to_case ("ẞ" ++ s) ("ß" ++ t).

End PyStr.

(* ================================================================== *)
(** * Python floats *)
(* ================================================================== *)

Module PyFloat.

Definition gt (a b : float) : bool := PrimFloat.ltb b a.
Definition le (a b : float) : bool := PrimFloat.leb a b.
Definition sub (a b : float) : float := PrimFloat.sub a b.
Definition is_nan (a : float) : bool := PrimFloat.is_nan a.

Definition of_nat (n : nat) : float :=
  PrimFloat.of_uint63 (Uint63.of_Z (Z.of_nat n)).

End PyFloat.

(* ================================================================== *)
(** * Insight classification (app.py, lines 169-179) *)
(* ================================================================== *)

Definition red : string := "#d9534f".
Definition orange : string := "#f0ad4e".
Definition green : string := "#5cb85c".

(** The pair (trend, color) chosen from the two group means. *)
Definition classify (mean_tumor mean_eczema : float) : string * string :=
  if PyFloat.gt mean_tumor mean_eczema then
    let diff := PyFloat.sub mean_tumor mean_eczema in
    if PyFloat.gt diff 0.5%float then
      ("SIGNIFICANTLY HIGHER", red)
    else
      ("Slightly Higher", orange)
  else
    ("Lower or Same", green).

(* ================================================================== *)
(** * Exceptions and the state-and-exception monad *)
(* ================================================================== *)

Inductive exn :=
| FileNotFoundError (path : string)
| OSError (msg : string)
| AttributeError (type_name attr : string)
| KeyError (key : string)
| ValueError (msg : string)
| TypeError
| OverflowError.

Inductive result (A : Type) :=
| Ok (a : A)
| Raise (e : exn).
Arguments Ok {A} a.
Arguments Raise {A} e.

(** A pure library call that may raise. *)
Definition bind_result {A B} (r : result A) (k : A -> result B) : result B :=
  match r with
  | Ok a => k a
  | Raise e => Raise e
  end.

(** [try: body / except: handler] around a pure computation. *)
Definition try_except {A} (body : result A) (handler : exn -> result A) : result A :=
  match body with
  | Ok a => Ok a
  | Raise e => handler e
  end.

(** A statement sequence over a state [S].  An exception keeps the state
    reached so far: what was emitted before it stays on the page. *)
Definition M (S A : Type) : Type := S -> result A * S.

Definition ret {S A} (a : A) : M S A := fun s => (Ok a, s).

Definition bind {S A B} (c : M S A) (k : A -> M S B) : M S B :=
  fun s =>
    match c s with
    | (Ok a, s') => k a s'
    | (Raise e, s') => (Raise e, s')
    end.

Definition lift {S A} (r : result A) : M S A := fun s => (r, s).

Definition try_except_M {S A} (body : M S A) (handler : exn -> M S A) : M S A :=
  fun s =>
    match body s with
    | (Ok a, s') => (Ok a, s')
    | (Raise e, s') => handler e s'
    end.

Declare Scope py_scope.
Delimit Scope py_scope with py.
Notation "x <- c ;; k" := (bind c (fun x => k))
  (at level 100, c at next level, right associativity) : py_scope.
Notation "c ;; k" := (bind c (fun _ => k))
  (at level 100, right associativity) : py_scope.
Notation "'let!' x := r 'in' k" := (bind_result r (fun x => k))
  (at level 100, x name, r at next level, right associativity) : py_scope.

Definition when {S} (b : bool) (c : M S unit) : M S unit :=
  if b then c else ret tt.

(* ================================================================== *)
(** * The dataset handle (AnnData) *)
(* ================================================================== *)

(** What [adata.X] can hold: nothing, a dense numpy array (a list of rows),
    or a scipy sparse matrix (per row, the stored (column, value) entries). *)
Inductive pyobj :=
| PyNone
| Ndarray (rows : list (list float))
| CsrMatrix (ncols : nat) (rows : list (list (nat * float))).

Record AnnData := {
  X : pyobj;
  obs_condition : list string;          (* adata.obs['condition'] *)
  var_names : list string;              (* the feature index *)
  obsm_X_umap : list (float * float)    (* adata.obsm['X_umap'] *)
}.

Definition n_obs (adata : AnnData) : nat := length (obs_condition adata).
Definition n_vars (adata : AnnData) : nat := length (var_names adata).



(** The positions, from [i] on, at which a label occurs in the feature
    index: a label that occurs twice selects two columns. *)
Fixpoint get_locs_from (i : nat) (names : list string) (g : string) : list nat :=
  match names with
  | [] => []
  | n :: rest =>
      (if String.eqb n g then [i] else []) ++ get_locs_from (S i) rest g
  end.

Definition get_locs (names : list string) (g : string) : list nat :=
  get_locs_from 0 names g.

(** The value a sparse row holds at column [j] (stored duplicates add up,
    absent entries are zero). *)
Definition sparse_entry (row : list (nat * float)) (j : nat) : float :=
  fold_left (fun acc cv => if Nat.eqb (fst cv) j then PrimFloat.add acc (snd cv) else acc)
            row 0%float.

(** The columns [js] of a matrix, in this order. *)
Definition select_columns (js : list nat) (o : pyobj) : pyobj :=
  match o with
  | PyNone => PyNone
  | Ndarray rows => Ndarray (map (fun r => map (fun j => nth j r 0%float) js) rows)
  | CsrMatrix _ rows =>
      CsrMatrix (length js)
        (map (fun r => combine (seq 0 (length js)) (map (sparse_entry r) js)) rows)
  end.

(** [adata[:, gene]]: the view on the feature columns named [gene]; a key
    error when there is none. *)
Definition getitem_var (adata : AnnData) (gene : string) : result AnnData :=
  match get_locs (var_names adata) gene with
  | [] => Raise (KeyError gene)
  | js =>
      Ok {| X := select_columns js (X adata);
            obs_condition := obs_condition adata;
            var_names := map (fun _ => gene) js;
            obsm_X_umap := obsm_X_umap adata |}
  end.

(** [.toarray()] on the matrix of a view: a sparse matrix is converted, and
    the array view that stands for a dense matrix has the method too and
    returns the array. *)
Definition toarray (o : pyobj) : result pyobj :=
  match o with
  | CsrMatrix n rows => Ok (Ndarray (map (fun r => map (sparse_entry r) (seq 0 n)) rows))
  | Ndarray rows => Ok (Ndarray rows)
  | PyNone => Raise (AttributeError "NoneType" "toarray")
  end.

(** [.flatten()]: a method of numpy arrays only. *)
Definition flatten (o : pyobj) : result (list float) :=
  match o with
  | Ndarray rows => Ok (concat rows)
  | CsrMatrix _ _ => Raise (AttributeError "csr_matrix" "flatten")
  | PyNone => Raise (AttributeError "NoneType" "flatten")
  end.

(* ================================================================== *)
(** * Expression extraction (app.py, lines 136-140) *)
(* ================================================================== *)

Local Open Scope py_scope.

(** [adata[:, gene_input].X.toarray().flatten()] *)
Definition sparse_to_dense (adata : AnnData) (gene_input : string) : result (list float) :=
  let! v := getitem_var adata gene_input in
  let! d := toarray (X v) in
  flatten d.

(** [adata[:, gene_input].X.flatten()] *)
Definition direct_dense_read (adata : AnnData) (gene_input : string) : result (list float) :=
  let! v := getitem_var adata gene_input in
  flatten (X v).

Definition expression_values (adata : AnnData) (gene_input : string) : result (list float) :=
  try_except (sparse_to_dense adata gene_input)
             (fun _ => direct_dense_read adata gene_input).

(* ================================================================== *)
(** * The (condition, expression) table and group means *)
(* ================================================================== *)

Record row := { Expression : float; Condition : string }.

Fixpoint zip_rows (values : list float) (labels : list string) : list row :=
  match values, labels with
  | v :: values', l :: labels' => {| Expression := v; Condition := l |} :: zip_rows values' labels'
  | _, _ => []
  end.

(** [pd.DataFrame({'Expression': values, 'Condition': labels})]: the array
    must be as long as the index of the labels. *)
Definition DataFrame (values : list float) (labels : list string) : result (list row) :=
  if Nat.eqb (length values) (length labels)
  then Ok (zip_rows values labels)
  else Raise (ValueError "array length does not match index length").

(** [df[df['Condition'] == label]['Expression']] *)
Definition select (df : list row) (label : string) : list float :=
  map Expression (List.filter (fun r => String.eqb (Condition r) label) df).

(** [Series.mean()] (missing values skipped): the sum of the values that
    are not NaN over their number, and NaN when there is none.  It raises
    nothing on an empty selection.  The values are added left to right
    here; the library may add them in another order, which can change the
    last bit of a long sum.  Nothing below depends on the order. *)
Definition mean (xs : list float) : float :=
  let count := length (List.filter (fun v => negb (PyFloat.is_nan v)) xs) in
  let the_sum :=
    fold_left (fun acc v => PrimFloat.add acc (if PyFloat.is_nan v then 0%float else v))
              xs 0%float in
  match count with
  | O => PrimFloat.nan
  | S _ => PrimFloat.div the_sum (PyFloat.of_nat count)
  end.

(* ================================================================== *)
(** * Dataset loading (app.py, lines 36-45) *)
(* ================================================================== *)

(** What a path of the file system holds. *)
Inductive file :=
| H5ad (content : AnnData)
| Malformed.

(** A loaded handle: an object with an identity and its content. *)
Record handle := {
  obj_id : nat;
  content : AnnData
}.

Inductive io_event :=
| ReadFile (path : string).

(** The state of the server process: the files, the resource cache of
    [st.cache_resource] (one slot: [load_data] takes no argument), the next
    fresh object identity, and the I/O done so far. *)
Record process := {
  fs : gmap string file;
  resource_cache : option handle;
  next_id : nat;
  io_log : list io_event
}.

Definition Proc (A : Type) : Type := M process A.

(** [sc.read_h5ad(path)]: one read of the file; a fresh object on success. *)
Definition read_h5ad (path : string) : Proc handle :=
  fun p =>
    let log := io_log p ++ [ReadFile path] in
    match fs p !! path with
    | None =>
        (Raise (FileNotFoundError path),
         {| fs := fs p; resource_cache := resource_cache p;
            next_id := next_id p; io_log := log |})
    | Some Malformed =>
        (Raise (OSError "Unable to open file"),
         {| fs := fs p; resource_cache := resource_cache p;
            next_id := next_id p; io_log := log |})
    | Some (H5ad a) =>
        (Ok {| obj_id := next_id p; content := a |},
         {| fs := fs p; resource_cache := resource_cache p;
            next_id := S (next_id p); io_log := log |})
    end.

(** [@st.cache_resource]: the decorated function runs when the cache is
    empty and its result is stored; afterwards the stored object itself is
    returned.  A call that raises stores nothing. *)
Definition cache_resource (f : Proc handle) : Proc handle :=
  fun p =>
    match resource_cache p with
    | Some h => (Ok h, p)
    | None =>
        match f p with
        | (Ok h, p') =>
            (Ok h, {| fs := fs p'; resource_cache := Some h;
                      next_id := next_id p'; io_log := io_log p' |})
        | (Raise e, p') => (Raise e, p')
        end
    end.

Definition load_data : Proc handle :=
  cache_resource (adata <- read_h5ad "ctcl_app_light.h5ad" ;; ret adata).

(** [n] invocations in a row: the handles returned and the final state. *)
Fixpoint load_many (n : nat) (p : process) : list (result handle) * process :=
  match n with
  | O => ([], p)
  | S n' =>
      let '(r, p') := load_data p in
      let '(rs, p'') := load_many n' p' in
      (r :: rs, p'')
  end.

(* ================================================================== *)
(** * The page: containers, figures and elements *)
(* ================================================================== *)

Inductive container :=
| Sidebar | SidebarCol1 | SidebarCol2
| Main | MainCol1 | MainCol2.

Record legend := {
  legend_loc : string;
  legend_bbox_to_anchor : float * float;
  legend_frameon : bool
}.

(** The arguments of one [sc.pl.umap] call, and the legend put on its axes. *)
Record umap_plot := {
  umap_adata : AnnData;
  umap_color : string;
  umap_cmap : option string;
  umap_palette : option string;
  umap_size : nat;
  umap_frameon : bool;
  umap_title : string;
  umap_legend : option legend
}.

(** The arguments of the [sns.violinplot] call and the axis styling after it. *)
Record violin_plot := {
  violin_data : list row;
  violin_x : string;
  violin_y : string;
  violin_palette : string;
  violin_linewidth : nat;
  xticks_rotation : nat;
  xticks_ha : string;
  xlabel : string;
  despine : bool
}.

Inductive figure :=
| UmapFigure (figsize : nat * nat) (p : umap_plot)
| ViolinFigure (figsize : nat * nat) (p : violin_plot).

(** The fields interpolated into the insight markup (the means are shown
    with two decimals). *)
Record insight_card := {
  card_gene : string;
  card_mean_tumor : float;
  card_mean_eczema : float;
  card_trend : string;
  card_color : string
}.

Inductive element :=
| Title (text : string)
| Header (text : string)
| Subheader (text : string)
| Markdown (text : string)
| Info (text : string)
| Caption (text : string)
| Error (text : string)
| Button (label : string)
| TextInput (label value : string)
| Radio (label : string) (options : list string)
| Pyplot (fig : figure)
| InsightMarkdown (card : insight_card).

(** The state of a render pass. *)
Record page_state := {
  session_state : gmap string string;
  emitted : list (container * element)
}.

Definition Run (A : Type) : Type := M page_state A.

Inductive view := GeneExpression | ClinicalCondition.

Definition view_label (v : view) : string :=
  match v with
  | GeneExpression => "Gene Expression"
  | ClinicalCondition => "Clinical Condition"
  end.

(** What the user did before this pass: which buttons report a click, what
    the text box holds (nothing typed: the box returns its default), and the
    option selected in the radio. *)
Record interaction := {
  clicked : string -> bool;
  typed : option string;
  selected : view
}.

Definition emit (c : container) (e : element) : Run unit :=
  fun st => (Ok tt, {| session_state := session_state st;
                       emitted := emitted st ++ [(c, e)] |}).

Definition session_contains (key : string) : Run bool :=
  fun st => (Ok (bool_decide (is_Some (session_state st !! key))), st).

Definition session_set (key value : string) : Run unit :=
  fun st => (Ok tt, {| session_state := <[key := value]> (session_state st);
                       emitted := emitted st |}).

Definition session_get (key : string) : Run string :=
  fun st =>
    match session_state st !! key with
    | Some v => (Ok v, st)
    | None => (Raise (KeyError key), st)
    end.

Definition button (ui : interaction) (c : container) (label : string) : Run bool :=
  emit c (Button label) ;; ret (clicked ui label).

Definition text_input (ui : interaction) (c : container) (label value : string) : Run string :=
  emit c (TextInput label value) ;;
  ret (match typed ui with Some t => t | None => value end).

Definition radio (ui : interaction) (c : container) (label : string)
    (options : list string) : Run string :=
  emit c (Radio label options) ;; ret (view_label (selected ui)).

Definition nl : string := String (ascii_of_nat 10) EmptyString.

Definition str_of_nat (n : nat) : string := NilEmpty.string_of_uint (Nat.to_uint n).

(* ================================================================== *)
(** * Sidebar controls (app.py, lines 47-80) *)
(* ================================================================== *)

Definition sidebar (adata : AnnData) (ui : interaction) : Run string :=
  emit Sidebar (Title "🧬 CTCL Explorer") ;;
  emit Sidebar (Info "Compare **Tumor** vs. **Eczema** vs. **Normal**.") ;;
  emit Sidebar (Header "Gene Selection") ;;
  has_gene <- session_contains "gene" ;;
  when (negb has_gene) (session_set "gene" "TOX") ;;
  emit Sidebar (Markdown "### ⚡ Quick Select") ;;
  b <- button ui SidebarCol1 "TOX (Exhaustion)" ;;
  when b (session_set "gene" "TOX") ;;
  b <- button ui SidebarCol2 "CCR4 (Target)" ;;
  when b (session_set "gene" "CCR4") ;;
  b <- button ui SidebarCol1 "CD3E (T-Cell)" ;;
  when b (session_set "gene" "CD3E") ;;
  b <- button ui SidebarCol2 "MKI67 (Prolif.)" ;;
  when b (session_set "gene" "MKI67") ;;
  stored <- session_get "gene" ;;
  text <- text_input ui Sidebar "Or type a gene symbol:" stored ;;
  let gene_input := PyStr.upper text in
  emit Sidebar (Markdown "---") ;;
  emit Sidebar (Caption ("**Dataset Stats:**" ++ nl ++
                         "• Cells: " ++ str_of_nat (n_obs adata) ++ nl ++
                         "• Genes: " ++ str_of_nat (n_vars adata) ++ " (Filtered)" ++ nl ++
                         "• Source: GSE128531")) ;;
  ret gene_input.

(* ================================================================== *)
(** * Main dashboard (app.py, lines 82-193) *)
(* ================================================================== *)

(** Lines 101-126: the embedding figure, by display mode. *)
Definition fig_umap (adata : AnnData) (gene_input view_option : string) : figure :=
  if String.eqb view_option "Gene Expression" then
    UmapFigure (8, 6)
      {| umap_adata := adata; umap_color := gene_input;
         umap_cmap := Some "viridis"; umap_palette := None;
         umap_size := 20; umap_frameon := false;
         umap_title := gene_input ++ " Expression";
         umap_legend := None |}
  else
    UmapFigure (8, 6)
      {| umap_adata := adata; umap_color := "condition";
         umap_cmap := None; umap_palette := Some "Set1";
         umap_size := 20; umap_frameon := false;
         umap_title := "Clinical Diagnosis";
         umap_legend := Some {| legend_loc := "center left";
                                legend_bbox_to_anchor := (1%float, 0.5%float);
                                legend_frameon := false |} |}.

(** Lines 147-158: the distribution figure. *)
Definition fig_vio (df_plot : list row) : figure :=
  ViolinFigure (5, 6)
    {| violin_data := df_plot; violin_x := "Condition"; violin_y := "Expression";
       violin_palette := "Set2"; violin_linewidth := 1;
       xticks_rotation := 45; xticks_ha := "right";
       xlabel := EmptyString; despine := true |}.

(** Lines 165-193: the insight block. *)
Definition insight (df_plot : list row) (gene_input : string) : Run unit :=
  try_except_M
    (let mean_tumor := mean (select df_plot "CTCL (Tumor)") in
     let mean_eczema := mean (select df_plot "Eczema (Benign)") in
     let '(trend, color) := classify mean_tumor mean_eczema in
     emit Main (InsightMarkdown
       {| card_gene := gene_input;
          card_mean_tumor := mean_tumor; card_mean_eczema := mean_eczema;
          card_trend := trend; card_color := color |}))
    (fun _ => emit Main (Info "Insufficient data for automated insight.")).

Definition not_found_message (gene_input : string) : string :=
  "❌ Gene '" ++ gene_input ++
  "' not found. Note: This lightweight app only contains top ~5,000 variable genes and clinical markers.".

(** What the plotting stack (matplotlib, scanpy, seaborn) does with the
    request for a figure: it draws it ([None]) or raises.  The script has
    no handler around its plotting calls, and what makes them raise (a
    handle without matrix colored by a gene, values out of range, ...) lies
    in the libraries, so this is a parameter of the pass. *)
Definition drawing : Type := figure -> option exn.

(** Build a figure and hand it to [st.pyplot]: the figure is shown only
    when building it raised nothing. *)
Definition pyplot (lib : drawing) (c : container) (fig : figure) : Run unit :=
  match lib fig with
  | None => emit c (Pyplot fig)
  | Some e => lift (Raise e)
  end.

Definition dashboard (lib : drawing) (adata : AnnData) (ui : interaction)
    (gene_input : string) : Run unit :=
  emit Main (Title ("Gene Expression: *" ++ gene_input ++ "*")) ;;
  if negb (bool_decide (gene_input ∈ var_names adata)) then
    emit Main (Error (not_found_message gene_input))
  else
    emit MainCol1 (Subheader "📍 Single-Cell Landscape") ;;
    view_option <- radio ui MainCol1 "Color Cells By:"
                     ["Gene Expression"; "Clinical Condition"] ;;
    pyplot lib MainCol1 (fig_umap adata gene_input view_option) ;;
    emit MainCol2 (Subheader "📊 Clinical Comparison") ;;
    emit MainCol2 (Markdown "Expression levels by Diagnosis.") ;;
    values <- lift (expression_values adata gene_input) ;;
    df_plot <- lift (DataFrame values (obs_condition adata)) ;;
    pyplot lib MainCol2 (fig_vio df_plot) ;;
    emit Main (Markdown "---") ;;
    emit Main (Subheader "💡 Analysis Interpretation") ;;
    insight df_plot gene_input.

(** One render pass over a loaded handle. *)
Definition script (lib : drawing) (adata : AnnData) (ui : interaction) : Run unit :=
  gene_input <- sidebar adata ui ;;
  dashboard lib adata ui gene_input.

Record pass := {
  outcome : result unit;
  page : list (container * element);
  session_after : gmap string string
}.

Definition render (lib : drawing) (adata : AnnData) (ui : interaction)
    (session : gmap string string) : pass :=
  let '(r, st) := script lib adata ui {| session_state := session; emitted := [] |} in
  {| outcome := r; page := emitted st; session_after := session_state st |}.

(** The gene symbol the pass works with (line 69-72). *)
Definition gene_input_of (adata : AnnData) (ui : interaction)
    (session : gmap string string) : string :=
  match sidebar adata ui {| session_state := session; emitted := [] |} with
  | (Ok g, _) => g
  | (Raise _, _) => EmptyString
  end.

(** The whole script: load the dataset (line 45), then render.  A load
    failure ends the pass before anything is drawn. *)
Definition app (lib : drawing) (ui : interaction) (session : gmap string string)
    (p : process) : result pass * process :=
  match load_data p with
  | (Ok h, p') => (Ok (render lib (content h) ui session), p')
  | (Raise e, p') => (Raise e, p')
  end.

(** What a page shows. *)
Definition is_embedding_plot (ce : container * element) : bool :=
  match snd ce with Pyplot (UmapFigure _ _) => true | _ => false end.

Definition is_distribution_plot (ce : container * element) : bool :=
  match snd ce with Pyplot (ViolinFigure _ _) => true | _ => false end.


Definition is_error_message (ce : container * element) : bool :=
  match snd ce with Error _ => true | _ => false end.

Definition is_insight_summary (ce : container * element) : bool :=
  match snd ce with InsightMarkdown _ => true | _ => false end.

Definition is_insufficient_notice (ce : container * element) : bool :=
  match snd ce with
  | Info text => String.eqb text "Insufficient data for automated insight."
  | _ => false
  end.

Definition count (f : container * element -> bool) (p : list (container * element)) : nat :=
  length (List.filter f p).

(* ================================================================== *)
(** * Interactions and page fragments used to state the properties *)
(* ================================================================== *)

(** The same interaction with [t] typed in the text box. *)
Definition type_text (t : string) (ui : interaction) : interaction :=
  {| clicked := clicked ui; typed := Some t; selected := selected ui |}.

(** The same interaction with the radio set to [v]. *)
Definition choose_view (v : view) (ui : interaction) : interaction :=
  {| clicked := clicked ui; typed := typed ui; selected := v |}.

(** No quick-select button reports a click. *)
Definition no_button (ui : interaction) : Prop :=
  clicked ui "TOX (Exhaustion)" = false /\
  clicked ui "CCR4 (Target)" = false /\
  clicked ui "CD3E (T-Cell)" = false /\
  clicked ui "MKI67 (Prolif.)" = false.

(** The four assignments of lines 60-67, in order, on a stored symbol. *)
Definition quick_select (ui : interaction) (g : string) : string :=
  let g := if clicked ui "TOX (Exhaustion)" then "TOX" else g in
  let g := if clicked ui "CCR4 (Target)" then "CCR4" else g in
  let g := if clicked ui "CD3E (T-Cell)" then "CD3E" else g in
  if clicked ui "MKI67 (Prolif.)" then "MKI67" else g.

Definition stored_gene (ui : interaction) (session : gmap string string) : string :=
  quick_select ui (default "TOX" (session !! "gene")).

Definition text_of (ui : interaction) (value : string) : string :=
  match typed ui with Some t => t | None => value end.

Definition sidebar_elements (adata : AnnData) (stored : string)
    : list (container * element) :=
  [ (Sidebar, Title "🧬 CTCL Explorer");
    (Sidebar, Info "Compare **Tumor** vs. **Eczema** vs. **Normal**.");
    (Sidebar, Header "Gene Selection");
    (Sidebar, Markdown "### ⚡ Quick Select");
    (SidebarCol1, Button "TOX (Exhaustion)");
    (SidebarCol2, Button "CCR4 (Target)");
    (SidebarCol1, Button "CD3E (T-Cell)");
    (SidebarCol2, Button "MKI67 (Prolif.)");
    (Sidebar, TextInput "Or type a gene symbol:" stored);
    (Sidebar, Markdown "---");
    (Sidebar, Caption ("**Dataset Stats:**" ++ nl ++
                       "• Cells: " ++ str_of_nat (n_obs adata) ++ nl ++
                       "• Genes: " ++ str_of_nat (n_vars adata) ++ " (Filtered)" ++ nl ++
                       "• Source: GSE128531")) ].

(** What the dashboard emits before and after the embedding figure, up to
    the extraction. *)
Definition before_embedding (gene_input : string) : list (container * element) :=
  [ (Main, Title ("Gene Expression: *" ++ gene_input ++ "*"));
    (MainCol1, Subheader "📍 Single-Cell Landscape");
    (MainCol1, Radio "Color Cells By:" ["Gene Expression"; "Clinical Condition"]) ].

Definition before_extraction : list (container * element) :=
  [ (MainCol2, Subheader "📊 Clinical Comparison");
    (MainCol2, Markdown "Expression levels by Diagnosis.") ].

Definition insight_card_of (df_plot : list row) (gene_input : string) : insight_card :=
  let mean_tumor := mean (select df_plot "CTCL (Tumor)") in
  let mean_eczema := mean (select df_plot "Eczema (Benign)") in
  {| card_gene := gene_input;
     card_mean_tumor := mean_tumor; card_mean_eczema := mean_eczema;
     card_trend := fst (classify mean_tumor mean_eczema);
     card_color := snd (classify mean_tumor mean_eczema) |}.

(** What the dashboard emits once the table is built. *)
Definition after_extraction (df_plot : list row) (gene_input : string)
    : list (container * element) :=
  [ (MainCol2, Pyplot (fig_vio df_plot));
    (Main, Markdown "---");
    (Main, Subheader "💡 Analysis Interpretation");
    (Main, InsightMarkdown (insight_card_of df_plot gene_input)) ].

(** The table of the pass: extraction, then pairing with the labels. *)
Definition df_plot_of (adata : AnnData) (gene_input : string) : result (list row) :=
  let! values := expression_values adata gene_input in
  DataFrame values (obs_condition adata).

(* ================================================================== *)
(** * Sample handles and interactions *)
(* ================================================================== *)

(** Three cells (tumor, eczema, normal) over two genes, stored sparse. *)
Definition sample_adata : AnnData :=
  {| X := CsrMatrix 2 [ [(0, 2.0%float)]; [(0, 1.3%float); (1, 1%float)]; [] ];
     obs_condition := ["CTCL (Tumor)"; "Eczema (Benign)"; "Normal"];
     var_names := ["TOX"; "CD3E"];
     obsm_X_umap := [(0%float, 0%float); (1%float, 0%float); (0%float, 1%float)] |}.

(** The same genes, stored dense, on cells none of which is an eczema cell. *)
Definition no_eczema_adata : AnnData :=
  {| X := Ndarray [ [2.0%float; 0%float]; [1%float; 1%float] ];
     obs_condition := ["CTCL (Tumor)"; "Normal"];
     var_names := ["TOX"; "CD3E"];
     obsm_X_umap := [(0%float, 0%float); (1%float, 0%float)] |}.

(** A handle without a matrix: neither extraction strategy applies. *)
Definition no_matrix_adata : AnnData :=
  {| X := PyNone;
     obs_condition := ["CTCL (Tumor)"; "Eczema (Benign)"];
     var_names := ["TOX"; "CD3E"];
     obsm_X_umap := [(0%float, 0%float); (1%float, 0%float)] |}.




(** A handle with a gene named SS. *)
Definition sharp_s_adata : AnnData :=
  {| X := Ndarray [ [2.0%float; 0%float]; [1%float; 1%float] ];
     obs_condition := ["CTCL (Tumor)"; "Eczema (Benign)"];
     var_names := ["SS"; "TOX"];
     obsm_X_umap := [(0%float, 0%float); (1%float, 0%float)] |}.

(** A plotting stack that raises only for an embedding colored by a gene on
    a handle without matrix (a type error, as scanpy raises there) and draws
    every other figure.  It stands for the libraries in the examples below,
    which use it on small handles (nothing else makes a plotting call raise
    there). *)
Definition draws_unless_no_matrix : drawing :=
  fun fig =>
    match fig with
    | UmapFigure _ p =>
        if String.eqb (umap_color p) "condition" then None
        else match X (umap_adata p) with
             | PyNone => Some TypeError
             | _ => None
             end
    | ViolinFigure _ _ => None
    end.

(** Nothing clicked, nothing typed, the radio on its first option. *)
Definition idle : interaction :=
  {| clicked := fun _ => false; typed := None; selected := GeneExpression |}.

(** A fresh server process whose working directory holds the input file. *)
Definition fresh_process : process :=
  {| fs := {[ "ctcl_app_light.h5ad" := H5ad sample_adata ]};
     resource_cache := None;
     next_id := 0;
     io_log := [] |}.

(* ================================================================== *)
(** * Further interactions and processes *)
(* ================================================================== *)

(** One button reports a click; nothing typed. *)
Definition click (label : string) : interaction :=
  {| clicked := String.eqb label; typed := None; selected := GeneExpression |}.

(** The same process over another file system (the file was removed,
    replaced, ...). *)
Definition with_fs (files : gmap string file) (p : process) : process :=
  {| fs := files; resource_cache := resource_cache p;
     next_id := next_id p; io_log := io_log p |}.

(** A fresh server process whose working directory lacks the input file. *)
Definition empty_process : process :=
  {| fs := ∅; resource_cache := None; next_id := 0; io_log := [] |}.

(** The title of line 83. *)
Definition main_title (gene_input : string) : container * element :=
  (Main, Title ("Gene Expression: *" ++ gene_input ++ "*")).

(* ================================================================== *)
(** * Facts about strings *)
(* ================================================================== *)

Module PyStrFacts.
Import PyStr.

Lemma upper_char_not_lower c : is_lower_char (upper_char c) = false.
Proof. destruct c as [[] [] [] [] [] [] [] []]; reflexivity. Qed.

Lemma upper_lower_char c : upper_char (lower_char c) = upper_char c.
Proof. destruct c as [[] [] [] [] [] [] [] []]; reflexivity. Qed.

Lemma lower_upper_char c : lower_char (upper_char c) = lower_char c.
Proof. destruct c as [[] [] [] [] [] [] [] []]; reflexivity. Qed.

Lemma upper_char_same_case c d : lower_char c = lower_char d -> upper_char c = upper_char d.
Proof.
  intros H. rewrite <- (upper_lower_char c), <- (upper_lower_char d). now rewrite H.
Qed.

Lemma upper_char_fixed c : is_lower_char c = false -> upper_char c = c.
Proof. intros H. unfold upper_char. now rewrite H. Qed.

Lemma has_ascii_lower_app s t :
  has_ascii_lower (s ++ t) = has_ascii_lower s || has_ascii_lower t.
Proof.
  induction s as [|c s IH]; simpl; [reflexivity|].
  now rewrite IH, orb_assoc.
Qed.

(** The uppercased text has no ASCII lowercase letter. *)
Lemma has_ascii_lower_upper_from pending s :
  has_ascii_lower (upper_from pending s) = false.
Proof.
  revert pending; induction s as [|c s IH]; intros pending; simpl.
  - now destruct pending.
  - destruct (pending && Ascii.eqb c byte_9F); simpl; [apply IH|].
    rewrite has_ascii_lower_app.
    replace (has_ascii_lower (if pending then String byte_C3 EmptyString else EmptyString))
      with false by now destruct pending.
    destruct (Ascii.eqb c byte_C3); simpl; [apply IH|].
    now rewrite upper_char_not_lower, IH.
Qed.

Lemma has_ascii_lower_upper s : has_ascii_lower (upper s) = false.
Proof. apply has_ascii_lower_upper_from. Qed.


(** On an ASCII character the uppercasing works character by character. *)
Lemma upper_cons_ascii c s :
  is_ascii_char c = true -> upper (String c s) = String (upper_char c) (upper s).
Proof.
  unfold upper. cbn [upper_from andb]. intros Hc.
  replace (Ascii.eqb c byte_C3) with false; [reflexivity|].
  destruct c as [[] [] [] [] [] [] [] []]; try discriminate Hc; reflexivity.
Qed.

Lemma upper_same_case s t :
  is_ascii s = true -> is_ascii t = true -> same_up_to_case s t -> upper s = upper t.
Proof.
  intros Hs Ht Hcase. induction Hcase as [|c d s t Hcd _ IH|s t _ _|s t _ _].
  - reflexivity.
  - simpl in Hs, Ht. apply andb_prop in Hs as [Hc Hs]. apply andb_prop in Ht as [Hd Ht].
    rewrite (upper_cons_ascii _ _ Hc), (upper_cons_ascii _ _ Hd).
    now rewrite (upper_char_same_case _ _ Hcd), (IH Hs Ht).
  - discriminate Hs.
  - discriminate Ht.
Qed.

(** An ASCII text and its uppercase form differ only in letter case. *)
Lemma same_up_to_case_upper_self s :
  is_ascii s = true -> same_up_to_case (upper s) s.
Proof.
  induction s as [|c s IH]; intros Hs.
  - constructor.
  - simpl in Hs. apply andb_prop in Hs as [Hc Hs].
    rewrite (upper_cons_ascii _ _ Hc). constructor; [apply lower_upper_char | now apply IH].
Qed.

Lemma upper_fixed s :
  is_ascii s = true -> has_ascii_lower s = false -> upper s = s.
Proof.
  induction s as [|c s IH]; intros Hs Hl; [reflexivity|].
  simpl in Hs, Hl. apply andb_prop in Hs as [Hc Hs].
  apply orb_false_elim in Hl as [Hlc Hl].
  rewrite (upper_cons_ascii _ _ Hc), (upper_char_fixed _ Hlc). now rewrite (IH Hs Hl).
Qed.

End PyStrFacts.

(* ================================================================== *)
(** * Facts about float comparison *)
(* ================================================================== *)

Module PyFloatFacts.

Lemma SFcompare_antisym x y :
  SFcompare y x = option_map CompOpp (SFcompare x y).
Proof.
  destruct x as [sx|sx| |sx mx ex], y as [sy|sy| |sy my ey]; simpl;
    try reflexivity;
    try (destruct sx; reflexivity);
    try (destruct sy; reflexivity);
    try (destruct sx, sy; reflexivity).
  destruct sx, sy; simpl; try reflexivity;
    rewrite (Z.compare_antisym ey ex);
    destruct (ey ?= ex)%Z; simpl; try reflexivity;
    now rewrite (Pos.compare_cont_antisym mx my Eq).
Qed.

(** [a <= b] excludes [a > b], also at infinities; a NaN satisfies neither. *)
Lemma le_not_gt a b : PyFloat.le a b = true -> PyFloat.gt a b = false.
Proof.
  unfold PyFloat.le, PyFloat.gt. rewrite leb_spec, ltb_spec.
  unfold SFleb, SFltb. rewrite (SFcompare_antisym (Prim2SF a) (Prim2SF b)).
  destruct (SFcompare (Prim2SF a) (Prim2SF b)) as [[]|]; simpl; congruence.
Qed.

End PyFloatFacts.

(* ================================================================== *)
(** * Running the script: closed forms of its parts *)
(* ================================================================== *)

Module RunFacts.

Lemma sidebar_run adata ui ss out :
  sidebar adata ui {| session_state := ss; emitted := out |} =
  (Ok (PyStr.upper (text_of ui (stored_gene ui ss))),
   {| session_state := <["gene" := stored_gene ui ss]> ss;
      emitted := out ++ sidebar_elements adata (stored_gene ui ss) |}).
Proof.
  unfold stored_gene, quick_select, text_of, sidebar_elements.
  cbv [sidebar bind emit button text_input session_contains session_set
       session_get when ret session_state emitted negb].
  destruct (ss !! "gene") as [g|] eqn:Hg.
  - rewrite bool_decide_eq_true_2 by eauto.
    destruct (clicked ui "TOX (Exhaustion)"), (clicked ui "CCR4 (Target)"),
      (clicked ui "CD3E (T-Cell)"), (clicked ui "MKI67 (Prolif.)").
    all: cbn [default from_option].
    all: repeat rewrite insert_insert_eq.
    all: try rewrite lookup_insert_eq.
    all: try rewrite Hg.
    all: try rewrite (insert_id ss "gene" g Hg).
    all: now rewrite <- !app_assoc.
  - rewrite bool_decide_eq_false_2 by (intros [? ?]; discriminate).
    destruct (clicked ui "TOX (Exhaustion)"), (clicked ui "CCR4 (Target)"),
      (clicked ui "CD3E (T-Cell)"), (clicked ui "MKI67 (Prolif.)").
    all: cbn [default from_option].
    all: repeat rewrite insert_insert_eq.
    all: rewrite lookup_insert_eq.
    all: now rewrite <- !app_assoc.
Qed.

Lemma insight_run df gene st :
  insight df gene st =
  (Ok tt, {| session_state := session_state st;
             emitted := emitted st ++ [(Main, InsightMarkdown (insight_card_of df gene))] |}).
Proof.
  unfold insight, try_except_M, insight_card_of.
  destruct (classify _ _) as [trend color]; reflexivity.
Qed.

Lemma dashboard_not_found lib adata ui gene ss out :
  gene ∉ var_names adata ->
  dashboard lib adata ui gene {| session_state := ss; emitted := out |} =
  (Ok tt, {| session_state := ss;
             emitted := out ++ [ (Main, Title ("Gene Expression: *" ++ gene ++ "*"));
                                 (Main, Error (not_found_message gene)) ] |}).
Proof.
  intros Hg. unfold dashboard.
  rewrite bool_decide_eq_false_2 by exact Hg.
  cbv [bind emit negb session_state emitted].
  now rewrite <- !app_assoc.
Qed.

(** The dashboard on a gene of the index: it stops at the first of the four
    steps that raises (embedding figure, extraction or table, distribution
    figure). *)
Lemma dashboard_found lib adata ui gene ss out :
  gene ∈ var_names adata ->
  dashboard lib adata ui gene {| session_state := ss; emitted := out |} =
  let fig := fig_umap adata gene (view_label (selected ui)) in
  let head := out ++ before_embedding gene in
  match lib fig with
  | Some e => (Raise e, {| session_state := ss; emitted := head |})
  | None =>
      let shown := head ++ [(MainCol1, Pyplot fig)] ++ before_extraction in
      match df_plot_of adata gene with
      | Raise e => (Raise e, {| session_state := ss; emitted := shown |})
      | Ok df =>
          match lib (fig_vio df) with
          | Some e => (Raise e, {| session_state := ss; emitted := shown |})
          | None =>
              (Ok tt, {| session_state := ss;
                         emitted := shown ++ after_extraction df gene |})
          end
      end
  end.
Proof.
  intros Hg. unfold dashboard, df_plot_of.
  rewrite bool_decide_eq_true_2 by exact Hg.
  cbv [bind emit radio lift ret negb session_state emitted bind_result pyplot].
  unfold before_embedding, before_extraction, after_extraction.
  destruct (lib (fig_umap adata gene (view_label (selected ui)))) as [e|];
    cbv [lift session_state emitted].
  - now rewrite <- !app_assoc.
  - destruct (expression_values adata gene) as [values|e].
    + destruct (DataFrame values (obs_condition adata)) as [df|e].
      * destruct (lib (fig_vio df)) as [e|]; cbv [lift session_state emitted].
        -- now rewrite <- !app_assoc.
        -- rewrite insight_run. cbn [session_state emitted].
           now rewrite <- !app_assoc.
      * now rewrite <- !app_assoc.
    + now rewrite <- !app_assoc.
Qed.

End RunFacts.

Module RenderFacts.
Import RunFacts.

Lemma gene_input_of_eq adata ui ss :
  gene_input_of adata ui ss = PyStr.upper (text_of ui (stored_gene ui ss)).
Proof. unfold gene_input_of. now rewrite sidebar_run. Qed.

Lemma render_not_found lib adata ui ss :
  gene_input_of adata ui ss ∉ var_names adata ->
  render lib adata ui ss =
  {| outcome := Ok tt;
     page := sidebar_elements adata (stored_gene ui ss) ++
             [ (Main, Title ("Gene Expression: *" ++ gene_input_of adata ui ss ++ "*"));
               (Main, Error (not_found_message (gene_input_of adata ui ss))) ];
     session_after := <["gene" := stored_gene ui ss]> ss |}.
Proof.
  rewrite gene_input_of_eq. intros Hg.
  unfold render, script, bind. rewrite sidebar_run.
  now rewrite (dashboard_not_found _ _ _ _ _ _ Hg).
Qed.

Lemma render_found lib adata ui ss :
  gene_input_of adata ui ss ∈ var_names adata ->
  render lib adata ui ss =
  let gene := gene_input_of adata ui ss in
  let fig := fig_umap adata gene (view_label (selected ui)) in
  let head := sidebar_elements adata (stored_gene ui ss) ++ before_embedding gene in
  let after := <["gene" := stored_gene ui ss]> ss in
  match lib fig with
  | Some e => {| outcome := Raise e; page := head; session_after := after |}
  | None =>
      let shown := head ++ [(MainCol1, Pyplot fig)] ++ before_extraction in
      match df_plot_of adata gene with
      | Raise e => {| outcome := Raise e; page := shown; session_after := after |}
      | Ok df =>
          match lib (fig_vio df) with
          | Some e => {| outcome := Raise e; page := shown; session_after := after |}
          | None =>
              {| outcome := Ok tt; page := shown ++ after_extraction df gene;
                 session_after := after |}
          end
      end
  end.
Proof.
  rewrite gene_input_of_eq. intros Hg.
  unfold render, script, bind. rewrite sidebar_run.
  rewrite (dashboard_found _ _ _ _ _ _ Hg). cbv zeta.
  destruct (lib (fig_umap _ _ _)); [now rewrite <- ?app_assoc|].
  destruct (df_plot_of adata _) as [df|]; [|now rewrite <- ?app_assoc].
  destruct (lib (fig_vio df)); now rewrite <- ?app_assoc.
Qed.

End RenderFacts.

(* ================================================================== *)
(** * Facts about the extraction *)
(* ================================================================== *)

Module ExtractionFacts.

Lemma get_locs_from_absent i (names : list string) g :
  g ∉ names -> get_locs_from i names g = [].
Proof.
  revert i; induction names as [|n rest IH]; intros i Hout; simpl; [reflexivity|].
  destruct (String.eqb n g) eqn:E.
  - apply String.eqb_eq in E. subst n. exfalso. apply Hout. now left.
  - rewrite IH; [reflexivity|]. intros Hin. apply Hout. now right.
Qed.

Lemma get_locs_from_present i (names : list string) g :
  g ∈ names -> get_locs_from i names g <> [].
Proof.
  revert i; induction names as [|n rest IH]; intros i Hin.
  - now apply not_elem_of_nil in Hin.
  - simpl. destruct (String.eqb n g) eqn:E; [discriminate|].
    apply elem_of_cons in Hin as [->|Hin].
    + now rewrite String.eqb_refl in E.
    + simpl. now apply IH.
Qed.



Lemma concat_singletons {A B} (f : A -> B) (l : list A) :
  concat (map (fun r => [f r]) l) = map f l.
Proof. induction l as [|a l IH]; simpl; [reflexivity | now rewrite IH]. Qed.

Lemma length_zip_rows values labels :
  length values = length labels -> length (zip_rows values labels) = length labels.
Proof.
  revert labels; induction values as [|v values IH]; intros [|l labels] H;
    simpl in *; try discriminate; [reflexivity|].
  f_equal. apply IH. now injection H.
Qed.

Lemma zip_rows_fields values labels :
  length values = length labels ->
  map Expression (zip_rows values labels) = values /\
  map Condition (zip_rows values labels) = labels.
Proof.
  revert labels; induction values as [|v values IH]; intros [|l labels] H;
    simpl in *; try discriminate; [now split|].
  injection H as H. destruct (IH _ H) as [-> ->]. now split.
Qed.

(** The two strategies on a dense matrix, for a symbol that selects the one
    column [j]: both give the column. *)
Lemma dense_column adata g j rows :
  get_locs (var_names adata) g = [j] -> X adata = Ndarray rows ->
  sparse_to_dense adata g = Ok (map (fun r => nth j r 0%float) rows) /\
  direct_dense_read adata g = Ok (map (fun r => nth j r 0%float) rows).
Proof.
  intros Hj HX. unfold sparse_to_dense, direct_dense_read, getitem_var.
  rewrite Hj, HX. cbn [bind_result X select_columns toarray flatten map].
  now rewrite concat_singletons.
Qed.

(** The conversion on a sparse matrix: the stored entries of column [j],
    added into a zero. *)
Lemma sparse_column adata g j n rows :
  get_locs (var_names adata) g = [j] -> X adata = CsrMatrix n rows ->
  sparse_to_dense adata g =
    Ok (map (fun r => PrimFloat.add 0%float (sparse_entry r j)) rows).
Proof.
  intros Hj HX. unfold sparse_to_dense, getitem_var.
  rewrite Hj, HX. cbn [bind_result X select_columns toarray flatten map length seq combine].
  rewrite map_map. f_equal. clear HX.
  induction rows as [|r rows IH]; [reflexivity|].
  cbn [map concat]. rewrite IH. reflexivity.
Qed.

Lemma no_matrix_raises adata g :
  g ∈ var_names adata -> X adata = PyNone ->
  sparse_to_dense adata g = Raise (AttributeError "NoneType" "toarray") /\
  direct_dense_read adata g = Raise (AttributeError "NoneType" "flatten").
Proof.
  intros Hin HX. unfold sparse_to_dense, direct_dense_read, getitem_var.
  pose proof (get_locs_from_present 0 _ _ Hin) as Hne. fold (get_locs (var_names adata) g) in Hne.
  destruct (get_locs (var_names adata) g) as [|j js]; [contradiction|].
  cbn [bind_result X]. rewrite HX. split; reflexivity.
Qed.



End ExtractionFacts.

(* ================================================================== *)
(** * Insight classification and the insight block *)
(* ================================================================== *)

Module InsightFacts.
Import PyFloatFacts.

Lemma gt_nan_l x : PyFloat.gt PrimFloat.nan x = false.
Proof.
  unfold PyFloat.gt. rewrite ltb_spec. unfold SFltb.
  replace (Prim2SF PrimFloat.nan) with S754_nan by reflexivity.
  now destruct (Prim2SF x).
Qed.

Lemma gt_nan_r x : PyFloat.gt x PrimFloat.nan = false.
Proof.
  unfold PyFloat.gt. rewrite ltb_spec. unfold SFltb.
  replace (Prim2SF PrimFloat.nan) with S754_nan by reflexivity.
  reflexivity.
Qed.

Lemma classify_nan_l x : classify PrimFloat.nan x = ("Lower or Same", green).
Proof. unfold classify. now rewrite gt_nan_l. Qed.

Lemma classify_nan_r x : classify x PrimFloat.nan = ("Lower or Same", green).
Proof. unfold classify. now rewrite gt_nan_r. Qed.

Lemma mean_nil : mean [] = PrimFloat.nan.
Proof. reflexivity. Qed.

(** C1. The tier and color are a function of the two means alone: a tumor
    mean above the eczema mean by more than 0.5 gives SIGNIFICANTLY HIGHER
    in red; above it by at most 0.5 gives Slightly Higher in orange; a tumor
    mean at most the eczema mean gives Lower or Same in green.  The three
    sample pairs of the specification fall in the three tiers. *)
Theorem classify_tiers (mean_tumor mean_eczema : float) :
  (PyFloat.gt mean_tumor mean_eczema = true ->
   PyFloat.gt (PyFloat.sub mean_tumor mean_eczema) 0.5%float = true ->
   classify mean_tumor mean_eczema = ("SIGNIFICANTLY HIGHER", "#d9534f")) /\
  (PyFloat.gt mean_tumor mean_eczema = true ->
   PyFloat.le (PyFloat.sub mean_tumor mean_eczema) 0.5%float = true ->
   classify mean_tumor mean_eczema = ("Slightly Higher", "#f0ad4e")) /\
  (PyFloat.le mean_tumor mean_eczema = true ->
   classify mean_tumor mean_eczema = ("Lower or Same", "#5cb85c")) /\
  classify 2.0%float 1.3%float = ("SIGNIFICANTLY HIGHER", "#d9534f") /\
  classify 1.5%float 1.3%float = ("Slightly Higher", "#f0ad4e") /\
  classify 1.0%float 1.0%float = ("Lower or Same", "#5cb85c").
Proof.
  repeat split.
  - intros Hgt Hdiff. unfold classify. now rewrite Hgt, Hdiff.
  - intros Hgt Hdiff. unfold classify. rewrite Hgt.
    now rewrite (le_not_gt _ _ Hdiff).
  - intros Hle. unfold classify. now rewrite (le_not_gt _ _ Hle).
Qed.

Lemma classify_tiers_witness :
  classify 2.0%float 1.3%float = ("SIGNIFICANTLY HIGHER", "#d9534f") /\
  classify 1.5%float 1.3%float = ("Slightly Higher", "#f0ad4e") /\
  classify 1.0%float 1.0%float = ("Lower or Same", "#5cb85c").
Proof.
  split; [|split].
  - apply (proj1 (classify_tiers 2.0%float 1.3%float)); reflexivity.
  - apply (proj1 (proj2 (classify_tiers 1.5%float 1.3%float))); reflexivity.
  - apply (proj1 (proj2 (proj2 (classify_tiers 1.0%float 1.0%float)))); reflexivity.
Defined.

(** C2 (what the code does). When the table has no row of the tumor group
    or no row of the eczema group, the insight block raises nothing and
    emits the detailed summary, with a NaN mean and the tier Lower or Same:
    the handler that prints the insufficient-data notice is not reached. *)
Theorem insight_empty_group (df : list row) (gene : string) (st : page_state) :
  select df "CTCL (Tumor)" = [] \/ select df "Eczema (Benign)" = [] ->
  insight df gene st =
  (Ok tt,
   {| session_state := session_state st;
      emitted := emitted st ++
        [(Main, InsightMarkdown
                  {| card_gene := gene;
                     card_mean_tumor := mean (select df "CTCL (Tumor)");
                     card_mean_eczema := mean (select df "Eczema (Benign)");
                     card_trend := "Lower or Same";
                     card_color := green |})] |}).
Proof.
  intros Hempty. rewrite RunFacts.insight_run. unfold insight_card_of.
  destruct Hempty as [H|H]; rewrite H, mean_nil.
  - now rewrite classify_nan_l.
  - now rewrite classify_nan_r.
Qed.

Lemma insight_empty_group_witness :
  insight [ {| Expression := 2.0%float; Condition := "CTCL (Tumor)" |};
            {| Expression := 1%float; Condition := "Normal" |} ]
          "TOX" {| session_state := ∅; emitted := [] |} =
  (Ok tt,
   {| session_state := ∅;
      emitted := [(Main, InsightMarkdown
                           {| card_gene := "TOX";
                              card_mean_tumor := 2.0%float;
                              card_mean_eczema := PrimFloat.nan;
                              card_trend := "Lower or Same";
                              card_color := green |})] |}).
Proof.
  apply (insight_empty_group
           [ {| Expression := 2.0%float; Condition := "CTCL (Tumor)" |};
             {| Expression := 1%float; Condition := "Normal" |} ]
           "TOX" {| session_state := ∅; emitted := [] |}).
  right; reflexivity.
Defined.

(** The whole pass on a handle without eczema cells: it completes, shows
    the detailed summary and no notice. *)
Example no_eczema_pass :
  let p := render draws_unless_no_matrix no_eczema_adata idle ∅ in
  outcome p = Ok tt /\
  count is_insight_summary (page p) = 1 /\
  count is_insufficient_notice (page p) = 0.
Proof. vm_compute. repeat split. Qed.

End InsightFacts.

(* ================================================================== *)
(** * Properties of a render pass *)
(* ================================================================== *)

Module PassFacts.
Import RunFacts RenderFacts ExtractionFacts.

Lemma count_app f (p q : list (container * element)) :
  count f (p ++ q) = count f p + count f q.
Proof. unfold count. now rewrite List.filter_app, length_app. Qed.

Lemma fig_umap_shape adata gene v :
  exists p, fig_umap adata gene v = UmapFigure (8, 6) p.
Proof. unfold fig_umap. destruct (String.eqb v _); eauto. Qed.

Lemma session_after_render lib adata ui ss :
  session_after (render lib adata ui ss) = <["gene" := stored_gene ui ss]> ss.
Proof.
  destruct (decide (gene_input_of adata ui ss ∈ var_names adata)) as [Hin|Hout].
  - rewrite (render_found _ _ _ _ Hin). cbv zeta.
    destruct (lib (fig_umap _ _ _)); [reflexivity|].
    destruct (df_plot_of adata _) as [df|]; [|reflexivity].
    now destruct (lib (fig_vio df)).
  - now rewrite (render_not_found _ _ _ _ Hout).
Qed.

(** The not-found pass: the sidebar, the title and the error message. *)
Lemma not_found_pass lib adata ui ss :
  gene_input_of adata ui ss ∉ var_names adata ->
  outcome (render lib adata ui ss) = Ok tt /\
  (Main, Error (not_found_message (gene_input_of adata ui ss)))
    ∈ page (render lib adata ui ss) /\
  count is_embedding_plot (page (render lib adata ui ss)) = 0 /\
  count is_distribution_plot (page (render lib adata ui ss)) = 0 /\
  count is_insight_summary (page (render lib adata ui ss)) = 0.
Proof.
  intros Hout. rewrite (render_not_found _ _ _ _ Hout).
  cbn [outcome page]. split; [reflexivity|]. split.
  - apply elem_of_app; right. apply elem_of_cons; right.
    apply elem_of_cons; left. reflexivity.
  - rewrite !count_app. repeat split; reflexivity.
Qed.

(** C3. When the gene symbol of the pass is not in the feature index, the
    pass completes, shows the error message that names the gene and says the
    app only holds a reduced gene panel, and shows no embedding plot, no
    distribution plot and no insight summary. *)
Theorem gene_not_found (lib : drawing) (adata : AnnData) (ui : interaction)
    (session : gmap string string) :
  gene_input_of adata ui session ∉ var_names adata ->
  let gene := gene_input_of adata ui session in
  let p := render lib adata ui session in
  outcome p = Ok tt /\
  (Main, Error ("❌ Gene '" ++ gene ++
                "' not found. Note: This lightweight app only contains top ~5,000 variable genes and clinical markers."))
    ∈ page p /\
  count is_embedding_plot (page p) = 0 /\
  count is_distribution_plot (page p) = 0 /\
  count is_insight_summary (page p) = 0.
Proof.
  intros Hout. cbv zeta. exact (not_found_pass lib adata ui session Hout).
Qed.

Lemma gene_not_found_witness :
  let p := render draws_unless_no_matrix sample_adata (type_text "xyz" idle) ∅ in
  outcome p = Ok tt /\
  (Main, Error "❌ Gene 'XYZ' not found. Note: This lightweight app only contains top ~5,000 variable genes and clinical markers.")
    ∈ page p /\
  count is_embedding_plot (page p) = 0 /\
  count is_distribution_plot (page p) = 0 /\
  count is_insight_summary (page p) = 0.
Proof.
  refine (gene_not_found draws_unless_no_matrix sample_adata (type_text "xyz" idle) ∅ _).
  rewrite gene_input_of_eq. cbn.
  intros H. repeat (apply elem_of_cons in H as [H|H]; [discriminate|]).
  now apply elem_of_nil in H.
Defined.





End PassFacts.

(* ================================================================== *)
(** * The extraction and its fallback *)
(* ================================================================== *)

Module FallbackFacts.
Import RunFacts RenderFacts ExtractionFacts PassFacts.

Lemma no_distribution_before_table side gene fig :
  count is_distribution_plot (side ++ before_embedding gene) = count is_distribution_plot side /\
  count is_distribution_plot
    ((side ++ before_embedding gene) ++ [(MainCol1, Pyplot (UmapFigure (8, 6) fig))] ++
     before_extraction) = count is_distribution_plot side.
Proof. rewrite !count_app. cbn. split; lia. Qed.

Lemma sidebar_no_distribution adata stored :
  count is_distribution_plot (sidebar_elements adata stored) = 0.
Proof. reflexivity. Qed.

(** C7. The extraction tries the sparse-to-dense conversion first: on a
    sparse matrix and on the array view of a dense matrix it yields the
    gene's column, and that is the result.  When the conversion raises, the
    result is that of the one fallback, the direct dense read, which on a
    dense matrix yields the column too.  On a handle without matrix both
    raise and the exception of the fallback is the one that leaves the
    extraction; it is not caught: the pass then ends with an exception and
    shows no distribution plot, and once the embedding figure has been
    drawn the exception that ends the pass is that of the fallback. *)
Theorem extraction_fallback (adata : AnnData) (gene : string) :
  (forall values, sparse_to_dense adata gene = Ok values ->
     expression_values adata gene = Ok values) /\
  (forall e, sparse_to_dense adata gene = Raise e ->
     expression_values adata gene = direct_dense_read adata gene) /\
  (forall j n rows,
     get_locs (var_names adata) gene = [j] -> X adata = CsrMatrix n rows ->
     sparse_to_dense adata gene =
       Ok (map (fun r => PrimFloat.add 0%float (sparse_entry r j)) rows)) /\
  (forall j rows,
     get_locs (var_names adata) gene = [j] -> X adata = Ndarray rows ->
     sparse_to_dense adata gene = Ok (map (fun r => nth j r 0%float) rows) /\
     direct_dense_read adata gene = Ok (map (fun r => nth j r 0%float) rows)) /\
  (gene ∈ var_names adata -> X adata = PyNone ->
     sparse_to_dense adata gene = Raise (AttributeError "NoneType" "toarray") /\
     expression_values adata gene = Raise (AttributeError "NoneType" "flatten")) /\
  (forall e1 e2 lib ui session,
     sparse_to_dense adata gene = Raise e1 ->
     direct_dense_read adata gene = Raise e2 ->
     gene_input_of adata ui session = gene ->
     gene ∈ var_names adata ->
     let p := render lib adata ui session in
     count is_distribution_plot (page p) = 0 /\
     (exists e, outcome p = Raise e) /\
     (lib (fig_umap adata gene (view_label (selected ui))) = None ->
      outcome p = Raise e2)).
Proof.
  split; [|split; [|split; [|split; [|split]]]].
  - intros values Hs. unfold expression_values. now rewrite Hs.
  - intros e Hs. unfold expression_values. now rewrite Hs.
  - intros j n rows Hj HX. exact (sparse_column _ _ _ _ _ Hj HX).
  - intros j rows Hj HX. exact (dense_column _ _ _ _ Hj HX).
  - intros Hin HX. destruct (no_matrix_raises _ _ Hin HX) as [Hs Hd].
    split; [exact Hs|]. unfold expression_values. now rewrite Hs.
  - intros e1 e2 lib ui session Hs Hd Hg Hin. cbv zeta.
    rewrite (render_found lib adata ui session) by (rewrite Hg; exact Hin).
    cbv zeta. rewrite Hg. unfold df_plot_of, expression_values.
    rewrite Hs, Hd. cbn [try_except bind_result].
    destruct (fig_umap_shape adata gene (view_label (selected ui))) as [u ->].
    destruct (no_distribution_before_table
                (sidebar_elements adata (stored_gene ui session)) gene u) as [H1 H2].
    destruct (lib (UmapFigure (8, 6) u)) as [e|]; cbn [outcome page].
    + rewrite H1, sidebar_no_distribution. split; [reflexivity|].
      split; [eauto | discriminate].
    + rewrite H2, sidebar_no_distribution. split; [reflexivity|].
      split; [eauto | reflexivity].
Qed.

Lemma extraction_fallback_witness :
  let p := render draws_unless_no_matrix no_matrix_adata
             (choose_view ClinicalCondition idle) ∅ in
  count is_distribution_plot (page p) = 0 /\
  outcome p = Raise (AttributeError "NoneType" "flatten").
Proof.
  cbv zeta.
  pose proof (proj2 (proj2 (proj2 (proj2 (proj2
                (extraction_fallback no_matrix_adata "TOX")))))
                (AttributeError "NoneType" "toarray")
                (AttributeError "NoneType" "flatten")
                draws_unless_no_matrix
                (choose_view ClinicalCondition idle) ∅) as H.
  cbv zeta in H.
  destruct H as (Hcount & _ & Hout).
  - reflexivity.
  - reflexivity.
  - rewrite RenderFacts.gene_input_of_eq. reflexivity.
  - apply elem_of_cons; left; reflexivity.
  - split; [exact Hcount | apply Hout; reflexivity].
Defined.

(** The three kinds of handle: the conversion gives the column of a sparse
    and of a dense matrix, and without matrix the fallback's exception ends
    the pass after the embedding plot. *)
Example extraction_samples :
  expression_values sample_adata "TOX" = Ok [2.0%float; 1.3%float; 0%float] /\
  sparse_to_dense no_eczema_adata "TOX" = Ok [2.0%float; 1%float] /\
  outcome (render draws_unless_no_matrix no_matrix_adata
             (choose_view ClinicalCondition idle) ∅) =
    Raise (AttributeError "NoneType" "flatten").
Proof. repeat split; reflexivity. Qed.

End FallbackFacts.

(* ================================================================== *)
(** * Selection: free text, quick-select buttons and the display mode *)
(* ================================================================== *)

Module SelectionFacts.
Import PyStr PyStrFacts RunFacts RenderFacts PassFacts.

Lemma gene_input_typed adata ui ss t :
  gene_input_of adata (type_text t ui) ss = upper t.
Proof. now rewrite gene_input_of_eq. Qed.

(** A pass depends on the interaction only through the stored symbol, the
    gene symbol and the selected view. *)
Lemma render_ext lib adata ui1 ui2 ss :
  stored_gene ui1 ss = stored_gene ui2 ss ->
  gene_input_of adata ui1 ss = gene_input_of adata ui2 ss ->
  selected ui1 = selected ui2 ->
  render lib adata ui1 ss = render lib adata ui2 ss.
Proof.
  intros Hs Hg Hv.
  destruct (decide (gene_input_of adata ui1 ss ∈ var_names adata)) as [Hin|Hout].
  - rewrite (render_found _ _ ui1 _ Hin).
    rewrite Hg in Hin. rewrite (render_found _ _ ui2 _ Hin).
    now rewrite Hs, Hg, Hv.
  - rewrite (render_not_found _ _ ui1 _ Hout).
    rewrite Hg in Hout. rewrite (render_not_found _ _ ui2 _ Hout).
    now rewrite Hs, Hg.
Qed.

(** C5 (counterexample). The small and the capital sharp s differ only
    in letter case, but uppercasing turns the first into SS and leaves the
    second as it is: on a handle with a gene named SS the first text is
    found and the second is not, and only the second pass shows the error
    message. *)
Lemma sharp_s_case_variants_differ :
  same_up_to_case "ß" "ẞ" /\
  gene_input_of sharp_s_adata (type_text "ß" idle) ∅ = "SS" /\
  gene_input_of sharp_s_adata (type_text "ẞ" idle) ∅ = "ẞ" /\
  bool_decide (gene_input_of sharp_s_adata (type_text "ß" idle) ∅
               ∈ var_names sharp_s_adata) = true /\
  bool_decide (gene_input_of sharp_s_adata (type_text "ẞ" idle) ∅
               ∈ var_names sharp_s_adata) = false /\
  count is_error_message
    (page (render draws_unless_no_matrix sharp_s_adata (type_text "ß" idle) ∅)) = 0 /\
  count is_error_message
    (page (render draws_unless_no_matrix sharp_s_adata (type_text "ẞ" idle) ∅)) = 1.
Proof.
  split; [exact (case_sharp_s_small _ _ case_nil)|].
  rewrite !gene_input_typed. vm_compute. repeat split.
Qed.

(** C5 (amended). The typed text is uppercased before it is used.  For two
    ASCII texts that differ only in letter case the gene symbol is the same
    (the text with its lowercase letters made uppercase), so the lookup
    result and the whole pass (outcome, page and stored state) are the
    same. *)
Theorem case_insensitive_input (lib : drawing) (adata : AnnData) (ui : interaction)
    (session : gmap string string) (s t : string) :
  is_ascii s = true -> is_ascii t = true ->
  same_up_to_case s t ->
  same_up_to_case (gene_input_of adata (type_text s ui) session) s /\
  has_ascii_lower (gene_input_of adata (type_text s ui) session) = false /\
  gene_input_of adata (type_text s ui) session =
    gene_input_of adata (type_text t ui) session /\
  bool_decide (gene_input_of adata (type_text s ui) session ∈ var_names adata) =
    bool_decide (gene_input_of adata (type_text t ui) session ∈ var_names adata) /\
  render lib adata (type_text s ui) session = render lib adata (type_text t ui) session.
Proof.
  intros Hs Ht Hcase.
  assert (Hg : gene_input_of adata (type_text s ui) session =
               gene_input_of adata (type_text t ui) session).
  { rewrite !gene_input_typed. now apply upper_same_case. }
  split; [rewrite gene_input_typed; now apply same_up_to_case_upper_self|].
  split; [rewrite gene_input_typed; apply has_ascii_lower_upper|].
  split; [exact Hg|]. split.
  - now rewrite Hg.
  - apply render_ext; [reflexivity | exact Hg | reflexivity].
Qed.

Lemma case_insensitive_input_witness :
  gene_input_of sample_adata (type_text "tox" idle) ∅ = "TOX" /\
  gene_input_of sample_adata (type_text "TOX" idle) ∅ = "TOX" /\
  render draws_unless_no_matrix sample_adata (type_text "tox" idle) ∅ =
    render draws_unless_no_matrix sample_adata (type_text "TOX" idle) ∅.
Proof.
  split; [now rewrite gene_input_typed|]. split; [now rewrite gene_input_typed|].
  refine (proj2 (proj2 (proj2 (proj2
            (case_insensitive_input draws_unless_no_matrix sample_adata idle ∅
               "tox" "TOX" _ _ _))))).
  - reflexivity.
  - reflexivity.
  - repeat (apply case_char; [reflexivity|]). apply case_nil.
Defined.




End SelectionFacts.

Module SessionFacts.
Import PyStr PyStrFacts RunFacts RenderFacts PassFacts SelectionFacts.

Lemma quick_select_cases ui g :
  (no_button ui /\ quick_select ui g = g) \/
  (clicked ui "TOX (Exhaustion)" = true /\ quick_select ui g = "TOX") \/
  (clicked ui "CCR4 (Target)" = true /\ quick_select ui g = "CCR4") \/
  (clicked ui "CD3E (T-Cell)" = true /\ quick_select ui g = "CD3E") \/
  (clicked ui "MKI67 (Prolif.)" = true /\ quick_select ui g = "MKI67").
Proof.
  unfold quick_select, no_button.
  destruct (clicked ui "TOX (Exhaustion)"), (clicked ui "CCR4 (Target)"),
    (clicked ui "CD3E (T-Cell)"), (clicked ui "MKI67 (Prolif.)"); tauto.
Qed.

(** C9. Typing in the text box never changes what the pass leaves in the
    session: the stored state after the pass is the same whatever is typed,
    while the typed text (uppercased) is the gene symbol of the pass.  With
    a stored symbol and no button clicked the session is left as it was; a
    stored symbol that changes was set by a clicked quick-select button to
    that button's literal; no other key is touched. *)
Theorem free_text_keeps_session (lib : drawing) (adata : AnnData) (ui : interaction)
    (session : gmap string string) (t : string) :
  session_after (render lib adata (type_text t ui) session) =
    session_after (render lib adata ui session) /\
  gene_input_of adata (type_text t ui) session = upper t /\
  (forall g, session !! "gene" = Some g -> no_button ui ->
     session_after (render lib adata (type_text t ui) session) = session) /\
  (forall g g', session !! "gene" = Some g ->
     session_after (render lib adata (type_text t ui) session) !! "gene" = Some g' ->
     g' <> g ->
     (clicked ui "TOX (Exhaustion)" = true /\ g' = "TOX") \/
     (clicked ui "CCR4 (Target)" = true /\ g' = "CCR4") \/
     (clicked ui "CD3E (T-Cell)" = true /\ g' = "CD3E") \/
     (clicked ui "MKI67 (Prolif.)" = true /\ g' = "MKI67")) /\
  (forall k, k <> "gene" ->
     session_after (render lib adata (type_text t ui) session) !! k = session !! k).
Proof.
  rewrite !session_after_render.
  change (stored_gene (type_text t ui) session) with (stored_gene ui session).
  split; [reflexivity|]. split; [apply gene_input_typed|]. split; [|split].
  - intros g Hg Hno. unfold stored_gene. rewrite Hg. cbn [default from_option id].
    destruct (quick_select_cases ui g) as [[_ ->]|Hc].
    + now apply insert_id.
    + destruct Hno as (N1 & N2 & N3 & N4).
      destruct Hc as [[C _]|[[C _]|[[C _]|[C _]]]]; congruence.
  - intros g g' Hg Hafter Hne. rewrite lookup_insert_eq in Hafter.
    injection Hafter as <-. unfold stored_gene in *. rewrite Hg in *.
    cbn [default from_option id] in *.
    destruct (quick_select_cases ui g) as [[_ Hq]|Hc]; [congruence|].
    destruct Hc as [[C ->]|[[C ->]|[[C ->]|[C ->]]]]; tauto.
  - intros k Hk. now rewrite lookup_insert_ne.
Qed.

Lemma free_text_keeps_session_witness :
  session_after (render draws_unless_no_matrix sample_adata (type_text "ccr4" idle) {[ "gene" := "TOX" ]})
  = {[ "gene" := "TOX" ]}.
Proof.
  refine (proj1 (proj2 (proj2 (free_text_keeps_session draws_unless_no_matrix sample_adata idle
                                 {[ "gene" := "TOX" ]} "ccr4"))) "TOX" _ _).
  - reflexivity.
  - repeat split.
Defined.




End SessionFacts.

(* ================================================================== *)
(** * The cached loader *)
(* ================================================================== *)

Module LoaderFacts.

(** A call on a filled cache returns the stored handle and leaves the
    process as it is: no read, no new object. *)
Lemma load_data_hit p h :
  resource_cache p = Some h -> load_data p = (Ok h, p).
Proof. intros H. unfold load_data, cache_resource. now rewrite H. Qed.

(** A call on an empty cache reads the file once and stores the handle. *)
Lemma load_data_miss p a :
  resource_cache p = None ->
  fs p !! "ctcl_app_light.h5ad" = Some (H5ad a) ->
  load_data p =
  (Ok {| obj_id := next_id p; content := a |},
   {| fs := fs p;
      resource_cache := Some {| obj_id := next_id p; content := a |};
      next_id := S (next_id p);
      io_log := io_log p ++ [ReadFile "ctcl_app_light.h5ad"] |}).
Proof.
  intros Hc Hf. unfold load_data, cache_resource, bind, read_h5ad, ret.
  now rewrite Hc, Hf.
Qed.

(** A call that fails stores nothing, so the next call reads again. *)
Lemma load_data_missing_file p :
  resource_cache p = None ->
  fs p !! "ctcl_app_light.h5ad" = None ->
  fst (load_data p) = Raise (FileNotFoundError "ctcl_app_light.h5ad") /\
  resource_cache (snd (load_data p)) = None.
Proof.
  intros Hc Hf. unfold load_data, cache_resource, bind, read_h5ad, ret.
  rewrite Hc, Hf. cbn. split; reflexivity.
Qed.

(** A load failure ends the script before anything is rendered. *)
Lemma app_load_failure lib ui session p :
  resource_cache p = None ->
  fs p !! "ctcl_app_light.h5ad" = None ->
  fst (app lib ui session p) = Raise (FileNotFoundError "ctcl_app_light.h5ad").
Proof.
  intros Hc Hf. unfold app, load_data, cache_resource, bind, read_h5ad, ret.
  now rewrite Hc, Hf.
Qed.

Lemma load_many_hit n p h :
  resource_cache p = Some h -> load_many n p = (replicate n (Ok h), p).
Proof.
  intros H. induction n as [|n IH]; simpl; [reflexivity|].
  now rewrite (load_data_hit _ _ H), IH.
Qed.

(** C6. In a process whose cache is empty and whose input file loads, any
    number of invocations of the loader return one and the same handle
    (same object, same content); the file is read once, by the first
    invocation, and the later ones do no I/O and create no object. *)
Theorem load_data_idempotent (p : process) (a : AnnData) (n : nat) :
  resource_cache p = None ->
  fs p !! "ctcl_app_light.h5ad" = Some (H5ad a) ->
  let h := {| obj_id := next_id p; content := a |} in
  fst (load_many (S n) p) = replicate (S n) (Ok h) /\
  io_log (snd (load_many (S n) p)) = io_log p ++ [ReadFile "ctcl_app_light.h5ad"] /\
  io_log (snd (load_many (S n) p)) = io_log (snd (load_data p)) /\
  next_id (snd (load_many (S n) p)) = S (next_id p) /\
  resource_cache (snd (load_many (S n) p)) = Some h.
Proof.
  intros Hc Hf. cbv zeta. cbn [load_many].
  rewrite (load_data_miss _ _ Hc Hf).
  rewrite (load_many_hit n) with (h := {| obj_id := next_id p; content := a |})
    by reflexivity.
  cbn. repeat split; reflexivity.
Qed.

Lemma load_data_idempotent_witness :
  let h := {| obj_id := 0; content := sample_adata |} in
  fst (load_many 3 fresh_process) = [Ok h; Ok h; Ok h] /\
  io_log (snd (load_many 3 fresh_process)) = [ReadFile "ctcl_app_light.h5ad"] /\
  io_log (snd (load_many 3 fresh_process)) = io_log (snd (load_data fresh_process)) /\
  next_id (snd (load_many 3 fresh_process)) = 1 /\
  resource_cache (snd (load_many 3 fresh_process)) = Some h.
Proof.
  refine (load_data_idempotent fresh_process sample_adata 2 _ _); reflexivity.
Defined.

End LoaderFacts.

(* ================================================================== *)
(** * What every page holds *)
(* ================================================================== *)

Module PageFacts.
Import RunFacts RenderFacts ExtractionFacts PassFacts.

(** The shapes of a pass: not found; ended while the embedding figure is
    built; ended by the extraction, the table construction or the violin
    figure; completed. *)
Lemma render_cases lib adata ui ss :
  ((gene_input_of adata ui ss ∉ var_names adata) /\
   outcome (render lib adata ui ss) = Ok tt /\
   page (render lib adata ui ss) =
     sidebar_elements adata (stored_gene ui ss) ++
     [ main_title (gene_input_of adata ui ss);
       (Main, Error (not_found_message (gene_input_of adata ui ss))) ]) \/
  (gene_input_of adata ui ss ∈ var_names adata /\
   exists u,
     fig_umap adata (gene_input_of adata ui ss) (view_label (selected ui)) =
       UmapFigure (8, 6) u /\
     ((exists e,
         lib (UmapFigure (8, 6) u) = Some e /\
         outcome (render lib adata ui ss) = Raise e /\
         page (render lib adata ui ss) =
           sidebar_elements adata (stored_gene ui ss) ++
           before_embedding (gene_input_of adata ui ss)) \/
      (lib (UmapFigure (8, 6) u) = None /\
       exists e,
         (df_plot_of adata (gene_input_of adata ui ss) = Raise e \/
          exists df, df_plot_of adata (gene_input_of adata ui ss) = Ok df /\
                     lib (fig_vio df) = Some e) /\
         outcome (render lib adata ui ss) = Raise e /\
         page (render lib adata ui ss) =
           sidebar_elements adata (stored_gene ui ss) ++
           before_embedding (gene_input_of adata ui ss) ++
           [(MainCol1, Pyplot (UmapFigure (8, 6) u))] ++
           before_extraction) \/
      (lib (UmapFigure (8, 6) u) = None /\
       exists df,
         df_plot_of adata (gene_input_of adata ui ss) = Ok df /\
         lib (fig_vio df) = None /\
         outcome (render lib adata ui ss) = Ok tt /\
         page (render lib adata ui ss) =
           sidebar_elements adata (stored_gene ui ss) ++
           before_embedding (gene_input_of adata ui ss) ++
           [(MainCol1, Pyplot (UmapFigure (8, 6) u))] ++
           before_extraction ++
           after_extraction df (gene_input_of adata ui ss)))).
Proof.
  destruct (decide (gene_input_of adata ui ss ∈ var_names adata)) as [Hin|Hout].
  - right. split; [exact Hin|].
    rewrite (render_found _ _ _ _ Hin). cbv zeta.
    destruct (fig_umap_shape adata (gene_input_of adata ui ss)
                (view_label (selected ui))) as [u Hu].
    rewrite Hu. exists u. split; [reflexivity|].
    destruct (lib (UmapFigure (8, 6) u)) as [e|] eqn:Hl.
    + left. exists e. cbn [outcome page]. now repeat split.
    + right. destruct (df_plot_of adata _) as [df|e] eqn:Hdf.
      * destruct (lib (fig_vio df)) as [e|] eqn:Hv.
        -- left. split; [reflexivity|]. exists e. cbn [outcome page].
           split; [right; eauto|]. now rewrite <- ?app_assoc.
        -- right. split; [reflexivity|]. exists df. cbn [outcome page].
           repeat split; try assumption; now rewrite <- ?app_assoc.
      * left. split; [reflexivity|]. exists e. cbn [outcome page].
        split; [now left|]. now rewrite <- ?app_assoc.
  - left. split; [exact Hout|]. now rewrite (render_not_found _ _ _ _ Hout).
Qed.

(** X1. No pass ever shows the insufficient-data notice: the try block of
    the insight computation cannot raise, so its handler is dead code. *)
Theorem notice_never_shown (lib : drawing) (adata : AnnData) (ui : interaction)
    (session : gmap string string) :
  count is_insufficient_notice (page (render lib adata ui session)) = 0.
Proof.
  destruct (render_cases lib adata ui session)
    as [(_ & _ & ->)|(_ & u & _ & [(e & _ & _ & ->)|[(_ & e & _ & _ & ->)|(_ & df & _ & _ & _ & ->)]])];
    rewrite !count_app; reflexivity.
Qed.

(** X2. For a gene of the feature index the embedding plot is shown exactly
    once when its figure is drawn without an exception, on every handle and
    also when the extraction that follows raises; when building the figure
    raises, no embedding plot is shown and that exception ends the pass. *)
Theorem embedding_plot_always (lib : drawing) (adata : AnnData) (ui : interaction)
    (session : gmap string string) :
  gene_input_of adata ui session ∈ var_names adata ->
  (lib (fig_umap adata (gene_input_of adata ui session) (view_label (selected ui))) = None ->
   count is_embedding_plot (page (render lib adata ui session)) = 1) /\
  (forall e,
     lib (fig_umap adata (gene_input_of adata ui session) (view_label (selected ui))) = Some e ->
     count is_embedding_plot (page (render lib adata ui session)) = 0 /\
     outcome (render lib adata ui session) = Raise e).
Proof.
  intros Hin.
  destruct (render_cases lib adata ui session)
    as [(Hout & _)|(_ & u & -> & [(e & Hl & -> & ->)|[(Hl & e & _ & _ & ->)|(Hl & df & _ & _ & _ & ->)]])];
    [contradiction| | |]; rewrite Hl; rewrite !count_app.
  - split; [discriminate|]. intros e' [= <-]. split; reflexivity.
  - split; [reflexivity | discriminate].
  - split; [reflexivity | discriminate].
Qed.

Lemma embedding_plot_always_witness :
  count is_embedding_plot
    (page (render draws_unless_no_matrix no_matrix_adata
             (choose_view ClinicalCondition idle) ∅)) = 1.
Proof.
  refine (proj1 (embedding_plot_always draws_unless_no_matrix no_matrix_adata
                   (choose_view ClinicalCondition idle) ∅ _) _).
  - rewrite gene_input_of_eq. apply elem_of_cons; left; reflexivity.
  - reflexivity.
Defined.

(** X3. A page holds as many insight summaries as distribution plots, and
    it holds one of each exactly when the gene is in the feature index and
    the pass completes. *)
Theorem insight_with_distribution (lib : drawing) (adata : AnnData) (ui : interaction)
    (session : gmap string string) :
  count is_insight_summary (page (render lib adata ui session)) =
    count is_distribution_plot (page (render lib adata ui session)) /\
  (count is_distribution_plot (page (render lib adata ui session)) = 1 <->
   outcome (render lib adata ui session) = Ok tt /\
   gene_input_of adata ui session ∈ var_names adata).
Proof.
  destruct (render_cases lib adata ui session)
    as [(Hout & Ho & ->)|(Hin & u & _ & [(e & _ & Ho & ->)|[(_ & e & _ & Ho & ->)|(_ & df & _ & _ & Ho & ->)]])];
    rewrite !count_app, Ho; (split; [reflexivity|]); cbn.
  - split; [discriminate | tauto].
  - split; [discriminate | intros [? _]; discriminate].
  - split; [discriminate | intros [? _]; discriminate].
  - tauto.
Qed.

Lemma elem_of_sidebar_not_violin adata stored c sz v :
  (c, Pyplot (ViolinFigure sz v)) ∉ sidebar_elements adata stored.
Proof.
  unfold sidebar_elements. intros H.
  repeat (apply elem_of_cons in H as [H|H]; [discriminate|]).
  now apply elem_of_nil in H.
Qed.

Lemma elem_of_head_not_violin gene u c sz v :
  (c, Pyplot (ViolinFigure sz v)) ∉
    before_embedding gene ++ [(MainCol1, Pyplot (UmapFigure (8, 6) u))] ++ before_extraction.
Proof.
  unfold before_embedding, before_extraction. intros H.
  repeat (apply elem_of_app in H as [H|H]);
    repeat (apply elem_of_cons in H as [H|H]; [discriminate|]);
    now apply elem_of_nil in H.
Qed.

(** X4. The distribution plot and the insight summary of a page come from
    one table: whenever a page shows a violin figure, it also shows the
    insight summary computed from that figure's data for the gene of the
    pass. *)
Theorem insight_from_violin_table (lib : drawing) (adata : AnnData) (ui : interaction)
    (session : gmap string string) (c : container) (sz : nat * nat) (v : violin_plot) :
  (c, Pyplot (ViolinFigure sz v)) ∈ page (render lib adata ui session) ->
  (Main, InsightMarkdown
           (insight_card_of (violin_data v) (gene_input_of adata ui session)))
    ∈ page (render lib adata ui session).
Proof.
  destruct (render_cases lib adata ui session)
    as [(_ & _ & ->)|(_ & u & _ & [(e & _ & _ & ->)|[(_ & e & _ & _ & ->)|(_ & df & _ & _ & _ & ->)]])];
    intros H.
  - apply elem_of_app in H as [H|H];
      [now apply elem_of_sidebar_not_violin in H|].
    repeat (apply elem_of_cons in H as [H|H]; [discriminate|]).
    now apply elem_of_nil in H.
  - apply elem_of_app in H as [H|H];
      [now apply elem_of_sidebar_not_violin in H|].
    unfold before_embedding in H.
    repeat (apply elem_of_cons in H as [H|H]; [discriminate|]).
    now apply elem_of_nil in H.
  - apply elem_of_app in H as [H|H];
      [now apply elem_of_sidebar_not_violin in H|].
    now apply elem_of_head_not_violin in H.
  - apply elem_of_app in H as [H|H];
      [now apply elem_of_sidebar_not_violin in H|].
    rewrite !app_assoc in H. apply elem_of_app in H as [H|H].
    + rewrite <- !app_assoc in H. now apply elem_of_head_not_violin in H.
    + unfold after_extraction in H. apply elem_of_cons in H as [H|H].
      * injection H as -> -> ->. cbn [violin_data fig_vio].
        rewrite !elem_of_app. do 4 right. unfold after_extraction.
        do 3 (apply elem_of_cons; right). apply elem_of_cons; left; reflexivity.
      * repeat (apply elem_of_cons in H as [H|H]; [discriminate|]).
        now apply elem_of_nil in H.
Qed.

Lemma insight_from_violin_table_witness :
  (Main, InsightMarkdown
           (insight_card_of
              [ {| Expression := 2.0%float; Condition := "CTCL (Tumor)" |};
                {| Expression := 1%float; Condition := "Normal" |} ]
              (gene_input_of no_eczema_adata idle ∅)))
    ∈ page (render draws_unless_no_matrix no_eczema_adata idle ∅).
Proof.
  refine (insight_from_violin_table draws_unless_no_matrix no_eczema_adata idle ∅
            MainCol2 (5, 6)
            {| violin_data :=
                 [ {| Expression := 2.0%float; Condition := "CTCL (Tumor)" |};
                   {| Expression := 1%float; Condition := "Normal" |} ];
               violin_x := "Condition"; violin_y := "Expression";
               violin_palette := "Set2"; violin_linewidth := 1;
               xticks_rotation := 45; xticks_ha := "right";
               xlabel := EmptyString; despine := true |} _).
  vm_compute. do 17 (apply elem_of_cons; right). apply elem_of_cons; left; reflexivity.
Defined.

End PageFacts.

(* ================================================================== *)
(** * More on the selection state and the controls *)
(* ================================================================== *)

Module ControlFacts.
Import PyStr PyStrFacts RunFacts RenderFacts PassFacts SelectionFacts
       SessionFacts PageFacts.

Lemma sidebar_in_page lib adata ui ss x :
  x ∈ sidebar_elements adata (stored_gene ui ss) -> x ∈ page (render lib adata ui ss).
Proof.
  intros Hx.
  destruct (render_cases lib adata ui ss)
    as [(_ & _ & ->)|(_ & u & _ & [(e & _ & _ & ->)|[(_ & e & _ & _ & ->)|(_ & df & _ & _ & _ & ->)]])];
    apply elem_of_app; now left.
Qed.

Lemma title_in_page lib adata ui ss :
  main_title (gene_input_of adata ui ss) ∈ page (render lib adata ui ss).
Proof.
  destruct (render_cases lib adata ui ss)
    as [(_ & _ & ->)|(_ & u & _ & [(e & _ & _ & ->)|[(_ & e & _ & _ & ->)|(_ & df & _ & _ & _ & ->)]])];
    apply elem_of_app; right; apply elem_of_cons; left; reflexivity.
Qed.

Lemma no_button_quick_select ui g : no_button ui -> quick_select ui g = g.
Proof.
  intros (N1 & N2 & N3 & N4). unfold quick_select. now rewrite N1, N2, N3, N4.
Qed.

(** X5. Every pass (not found, completed or ended by an exception) shows
    the title with the gene symbol, the four quick-select buttons and the
    text box, and the default text of the box is the symbol the pass leaves
    in the session. *)
Theorem controls_always_shown (lib : drawing) (adata : AnnData) (ui : interaction)
    (session : gmap string string) :
  let p := render lib adata ui session in
  (Main, Title ("Gene Expression: *" ++ gene_input_of adata ui session ++ "*")) ∈ page p /\
  (SidebarCol1, Button "TOX (Exhaustion)") ∈ page p /\
  (SidebarCol2, Button "CCR4 (Target)") ∈ page p /\
  (SidebarCol1, Button "CD3E (T-Cell)") ∈ page p /\
  (SidebarCol2, Button "MKI67 (Prolif.)") ∈ page p /\
  exists stored,
    session_after p !! "gene" = Some stored /\
    (Sidebar, TextInput "Or type a gene symbol:" stored) ∈ page p.
Proof.
  cbv zeta. split; [apply title_in_page|].
  repeat split.
  - apply sidebar_in_page. do 4 (apply elem_of_cons; right).
    apply elem_of_cons; left; reflexivity.
  - apply sidebar_in_page. do 5 (apply elem_of_cons; right).
    apply elem_of_cons; left; reflexivity.
  - apply sidebar_in_page. do 6 (apply elem_of_cons; right).
    apply elem_of_cons; left; reflexivity.
  - apply sidebar_in_page. do 7 (apply elem_of_cons; right).
    apply elem_of_cons; left; reflexivity.
  - exists (stored_gene ui session). split.
    + rewrite session_after_render. apply lookup_insert_eq.
    + apply sidebar_in_page. do 8 (apply elem_of_cons; right).
      apply elem_of_cons; left; reflexivity.
Qed.

(** X6. On the first pass of a session (no symbol stored) without a button
    click, the pass stores TOX, and with an untouched text box TOX is the
    gene it renders. *)
Theorem session_default_gene (lib : drawing) (adata : AnnData) (ui : interaction)
    (session : gmap string string) :
  session !! "gene" = None ->
  no_button ui ->
  session_after (render lib adata ui session) !! "gene" = Some "TOX" /\
  (typed ui = None -> gene_input_of adata ui session = "TOX").
Proof.
  intros Hnone Hno. rewrite session_after_render, lookup_insert_eq.
  rewrite gene_input_of_eq. unfold stored_gene, text_of. rewrite Hnone.
  cbn [default from_option id]. rewrite (no_button_quick_select _ _ Hno).
  split; [reflexivity|]. now intros ->.
Qed.

Lemma session_default_gene_witness :
  session_after (render draws_unless_no_matrix sample_adata idle ∅) !! "gene" = Some "TOX" /\
  (typed idle = None -> gene_input_of sample_adata idle ∅ = "TOX").
Proof.
  refine (session_default_gene draws_unless_no_matrix sample_adata idle ∅ _ _).
  - reflexivity.
  - repeat split.
Defined.

(** X7. A rerun in which no button is clicked leaves the session exactly
    as the previous pass left it, whatever is typed and whatever the two
    passes render. *)
Theorem rerun_keeps_session (lib : drawing) (adata1 adata2 : AnnData) (ui1 ui2 : interaction)
    (session : gmap string string) :
  no_button ui2 ->
  session_after (render lib adata2 ui2 (session_after (render lib adata1 ui1 session))) =
    session_after (render lib adata1 ui1 session).
Proof.
  intros Hno. rewrite !session_after_render.
  unfold stored_gene at 1. rewrite lookup_insert_eq.
  cbn [default from_option id]. rewrite (no_button_quick_select _ _ Hno).
  apply insert_insert_eq.
Qed.

Lemma rerun_keeps_session_witness :
  session_after (render draws_unless_no_matrix sample_adata (type_text "cd3e" idle)
                   (session_after (render draws_unless_no_matrix sample_adata (click "CCR4 (Target)") ∅))) =
    session_after (render draws_unless_no_matrix sample_adata (click "CCR4 (Target)") ∅).
Proof.
  refine (rerun_keeps_session draws_unless_no_matrix sample_adata sample_adata
            (click "CCR4 (Target)") (type_text "cd3e" idle) ∅ _).
  repeat split.
Defined.

(** X8. When several buttons report a click in one pass, the one tested
    last in the script decides the stored symbol: MKI67 before CD3E before
    CCR4 before TOX. *)
Theorem last_button_wins (lib : drawing) (adata : AnnData) (ui : interaction)
    (session : gmap string string) :
  (clicked ui "MKI67 (Prolif.)" = true ->
   session_after (render lib adata ui session) !! "gene" = Some "MKI67") /\
  (clicked ui "MKI67 (Prolif.)" = false -> clicked ui "CD3E (T-Cell)" = true ->
   session_after (render lib adata ui session) !! "gene" = Some "CD3E") /\
  (clicked ui "MKI67 (Prolif.)" = false -> clicked ui "CD3E (T-Cell)" = false ->
   clicked ui "CCR4 (Target)" = true ->
   session_after (render lib adata ui session) !! "gene" = Some "CCR4") /\
  (clicked ui "MKI67 (Prolif.)" = false -> clicked ui "CD3E (T-Cell)" = false ->
   clicked ui "CCR4 (Target)" = false -> clicked ui "TOX (Exhaustion)" = true ->
   session_after (render lib adata ui session) !! "gene" = Some "TOX").
Proof.
  rewrite session_after_render, lookup_insert_eq.
  unfold stored_gene, quick_select.
  repeat split; intros; repeat match goal with H : clicked _ _ = _ |- _ =>
    rewrite H; clear H end; reflexivity.
Qed.

Lemma last_button_wins_witness :
  session_after
    (render draws_unless_no_matrix sample_adata
       {| clicked := fun l => String.eqb l "TOX (Exhaustion)" || String.eqb l "MKI67 (Prolif.)";
          typed := None; selected := GeneExpression |}
       {[ "gene" := "CCR4" ]}) !! "gene" = Some "MKI67".
Proof.
  refine (proj1 (last_button_wins draws_unless_no_matrix sample_adata
            {| clicked := fun l => String.eqb l "TOX (Exhaustion)" || String.eqb l "MKI67 (Prolif.)";
               typed := None; selected := GeneExpression |}
            {[ "gene" := "CCR4" ]}) _).
  reflexivity.
Defined.

(** X9. With an untouched text box the pass renders the stored symbol as
    the pass leaves it, uppercased: a quick-select click takes effect in
    the very pass it triggers. *)
Theorem untouched_box_uses_stored (lib : drawing) (adata : AnnData) (ui : interaction)
    (session : gmap string string) (g : string) :
  typed ui = None ->
  session_after (render lib adata ui session) !! "gene" = Some g ->
  gene_input_of adata ui session = upper g.
Proof.
  intros Ht Hs. rewrite session_after_render, lookup_insert_eq in Hs.
  injection Hs as <-. rewrite gene_input_of_eq. unfold text_of. now rewrite Ht.
Qed.

Lemma untouched_box_uses_stored_witness :
  gene_input_of sample_adata (click "CCR4 (Target)") {[ "gene" := "TOX" ]} = "CCR4".
Proof.
  refine (untouched_box_uses_stored draws_unless_no_matrix sample_adata (click "CCR4 (Target)")
            {[ "gene" := "TOX" ]} "CCR4" _ _).
  - reflexivity.
  - rewrite session_after_render. reflexivity.
Defined.

(** X10. A typed ASCII text without a lowercase letter is looked up as
    typed. *)
Theorem uppercase_text_verbatim (adata : AnnData) (ui : interaction)
    (session : gmap string string) (t : string) :
  is_ascii t = true ->
  has_ascii_lower t = false ->
  gene_input_of adata (type_text t ui) session = t.
Proof.
  intros Ha Ht. rewrite gene_input_typed. now apply upper_fixed.
Qed.

Lemma uppercase_text_verbatim_witness :
  gene_input_of sample_adata (type_text "MKI67" idle) ∅ = "MKI67".
Proof.
  refine (uppercase_text_verbatim sample_adata idle ∅ "MKI67" _ _); reflexivity.
Defined.

(** X11. On a pass whose gene is not in the feature index the selected
    display mode changes nothing: outcome, page and stored state are the
    same for both modes. *)
Theorem not_found_ignores_view (lib : drawing) (adata : AnnData) (ui : interaction)
    (session : gmap string string) (v : view) :
  gene_input_of adata ui session ∉ var_names adata ->
  render lib adata (choose_view v ui) session = render lib adata ui session.
Proof.
  intros Hout.
  assert (Hg : gene_input_of adata (choose_view v ui) session =
               gene_input_of adata ui session) by now rewrite !gene_input_of_eq.
  rewrite (render_not_found lib adata ui session Hout).
  rewrite <- Hg in Hout. rewrite (render_not_found _ _ _ _ Hout).
  now rewrite Hg.
Qed.

Lemma not_found_ignores_view_witness :
  render draws_unless_no_matrix sample_adata (choose_view ClinicalCondition (type_text "xyz" idle)) ∅ =
  render draws_unless_no_matrix sample_adata (type_text "xyz" idle) ∅.
Proof.
  refine (not_found_ignores_view draws_unless_no_matrix sample_adata (type_text "xyz" idle) ∅
            ClinicalCondition _).
  rewrite gene_input_of_eq. cbn.
  intros H. repeat (apply elem_of_cons in H as [H|H]; [discriminate|]).
  now apply elem_of_nil in H.
Defined.

End ControlFacts.

(* ================================================================== *)
(** * Edge cases of the classification *)
(* ================================================================== *)

Module ClassifyEdgeFacts.

Lemma spec_float_eq_nan (s : spec_float) : s = S754_nan \/ s <> S754_nan.
Proof. destruct s; [right|right|left|right]; try reflexivity; discriminate. Qed.

Lemma SFcompare_refl s : s <> S754_nan -> SFcompare s s = Some Eq.
Proof.
  destruct s as [sg|sg| |sg m e]; intros Hs; simpl.
  - reflexivity.
  - now destruct sg.
  - now contradiction Hs.
  - destruct sg; rewrite Z.compare_refl, Pos.compare_cont_refl; reflexivity.
Qed.

Lemma is_nan_SF a : PyFloat.is_nan a = true -> Prim2SF a = S754_nan.
Proof.
  unfold PyFloat.is_nan, PrimFloat.is_nan. rewrite FloatAxioms.eqb_spec. unfold SFeqb.
  intros H.
  destruct (spec_float_eq_nan (Prim2SF a)) as [Hn|Hn]; [exact Hn|].
  rewrite (SFcompare_refl _ Hn) in H. discriminate.
Qed.

Lemma gt_is_nan_l a x : PyFloat.is_nan a = true -> PyFloat.gt a x = false.
Proof.
  intros Ha. unfold PyFloat.gt. rewrite ltb_spec. unfold SFltb.
  rewrite (is_nan_SF _ Ha). now destruct (Prim2SF x).
Qed.

Lemma gt_is_nan_r a x : PyFloat.is_nan a = true -> PyFloat.gt x a = false.
Proof.
  intros Ha. unfold PyFloat.gt. rewrite ltb_spec. unfold SFltb.
  now rewrite (is_nan_SF _ Ha).
Qed.

(** X12. When either mean is NaN both comparisons of the classification
    are false, so the tier is Lower or Same in green. *)
Theorem classify_nan_mean (mean_tumor mean_eczema : float) :
  PyFloat.is_nan mean_tumor = true \/ PyFloat.is_nan mean_eczema = true ->
  classify mean_tumor mean_eczema = ("Lower or Same", "#5cb85c").
Proof.
  intros [H|H]; unfold classify.
  - now rewrite (gt_is_nan_l _ _ H).
  - now rewrite (gt_is_nan_r _ _ H).
Qed.

Lemma classify_nan_mean_witness :
  classify (mean []) 1.3%float = ("Lower or Same", "#5cb85c").
Proof.
  refine (classify_nan_mean (mean []) 1.3%float _). left; reflexivity.
Defined.

(** X13. The threshold is strict: a tumor mean above the eczema mean by
    exactly 0.5 is Slightly Higher, not SIGNIFICANTLY HIGHER. *)
Theorem classify_threshold_strict (mean_tumor mean_eczema : float) :
  PyFloat.gt mean_tumor mean_eczema = true ->
  PyFloat.sub mean_tumor mean_eczema = 0.5%float ->
  classify mean_tumor mean_eczema = ("Slightly Higher", "#f0ad4e").
Proof.
  intros Hgt Hdiff. unfold classify. rewrite Hgt, Hdiff. reflexivity.
Qed.

Lemma classify_threshold_strict_witness :
  classify 1.5%float 1%float = ("Slightly Higher", "#f0ad4e").
Proof.
  refine (classify_threshold_strict 1.5%float 1%float _ _); reflexivity.
Defined.

End ClassifyEdgeFacts.

(* ================================================================== *)
(** * More on the extraction and the table *)
(* ================================================================== *)

Module TableFacts.
Import RunFacts RenderFacts ExtractionFacts PassFacts PageFacts.

(** On a gene of the index the extraction ends in a value or in an
    attribute error, never in a key error. *)
Lemma expression_values_in_index adata g :
  g ∈ var_names adata ->
  (exists values, expression_values adata g = Ok values) \/
  (exists t a, expression_values adata g = Raise (AttributeError t a)).
Proof.
  intros Hin. pose proof (get_locs_from_present 0 _ _ Hin) as Hne.
  fold (get_locs (var_names adata) g) in Hne.
  unfold expression_values, sparse_to_dense, direct_dense_read, getitem_var.
  destruct (get_locs (var_names adata) g) as [|j js]; [contradiction|].
  cbn [bind_result X].
  destruct (X adata) as [|rows|n rows]; cbn; eauto.
Qed.

(** X14. The extraction raises the key error of the column lookup exactly
    on the gene symbols that are not in the feature index: the membership
    test of the script guards precisely this failure. *)
Theorem extraction_key_error (adata : AnnData) (g : string) :
  expression_values adata g = Raise (KeyError g) <-> g ∉ var_names adata.
Proof.
  split.
  - intros Hraise Hin.
    destruct (expression_values_in_index _ _ Hin) as [[v Hv]|(t & a & Ha)];
      rewrite Hraise in *; discriminate.
  - intros Hout.
    unfold expression_values, sparse_to_dense, direct_dense_read, getitem_var, get_locs.
    now rewrite (get_locs_from_absent _ _ _ Hout).
Qed.



(** X16. A table that is built pairs the cells in order: its condition
    column is the condition annotation and its expression column is the
    extracted vector.  When the vector and the annotation differ in length
    the construction raises a value error instead. *)
Theorem table_pairs_cells (adata : AnnData) (g : string) :
  (forall df, df_plot_of adata g = Ok df ->
     map Condition df = obs_condition adata /\
     expression_values adata g = Ok (map Expression df) /\
     length df = n_obs adata) /\
  (forall values, expression_values adata g = Ok values ->
     length values <> n_obs adata ->
     df_plot_of adata g = Raise (ValueError "array length does not match index length")).
Proof.
  unfold df_plot_of, DataFrame, n_obs. split.
  - intros df. destruct (expression_values adata g) as [values|e];
      cbn [bind_result]; [|discriminate].
    destruct (Nat.eqb (length values) (length (obs_condition adata))) eqn:E;
      [|discriminate].
    apply Nat.eqb_eq in E. intros [= <-].
    destruct (zip_rows_fields _ _ E) as [-> ->].
    repeat split. now apply length_zip_rows.
  - intros values -> Hne. cbn [bind_result].
    apply Nat.eqb_neq in Hne. now rewrite Hne.
Qed.

Lemma table_pairs_cells_witness :
  map Condition [ {| Expression := 2.0%float; Condition := "CTCL (Tumor)" |};
                  {| Expression := 1%float; Condition := "Normal" |} ]
    = obs_condition no_eczema_adata /\
  expression_values no_eczema_adata "TOX" =
    Ok (map Expression [ {| Expression := 2.0%float; Condition := "CTCL (Tumor)" |};
                         {| Expression := 1%float; Condition := "Normal" |} ]) /\
  length [ {| Expression := 2.0%float; Condition := "CTCL (Tumor)" |};
           {| Expression := 1%float; Condition := "Normal" |} ]
    = n_obs no_eczema_adata.
Proof.
  refine (proj1 (table_pairs_cells no_eczema_adata "TOX") _ _). reflexivity.
Defined.

(** X17. An exception ends a pass only for a gene of the feature index, and
    it comes from one of four places: building the embedding figure, the
    extraction (an attribute error), the table construction (a value error)
    or building the violin figure.  The session lookup of the sidebar and
    the column lookup of the extraction are both guarded and never end a
    pass with a key error of their own. *)
Theorem pass_exceptions (lib : drawing) (adata : AnnData) (ui : interaction)
    (session : gmap string string) (e : exn) :
  outcome (render lib adata ui session) = Raise e ->
  gene_input_of adata ui session ∈ var_names adata /\
  (lib (fig_umap adata (gene_input_of adata ui session) (view_label (selected ui))) = Some e \/
   (exists t a, e = AttributeError t a) \/
   (exists m, e = ValueError m) \/
   (exists df, df_plot_of adata (gene_input_of adata ui session) = Ok df /\
               lib (fig_vio df) = Some e)).
Proof.
  intros Ho.
  destruct (render_cases lib adata ui session)
    as [(_ & Ho' & _)|(Hin & u & Hu & [(e' & Hl & Ho' & _)|[(_ & e' & Hsrc & Ho' & _)|(_ & df & _ & _ & Ho' & _)]])];
    rewrite Ho' in Ho; try discriminate; injection Ho as <-;
    (split; [exact Hin|]).
  - left. now rewrite Hu.
  - destruct Hsrc as [Hdf|(df & Hdf & Hv)]; [|do 3 right; eauto].
    right. unfold df_plot_of in Hdf.
    destruct (expression_values_in_index _ _ Hin) as [[v Hv]|(t & a & Ha)].
    + rewrite Hv in Hdf. cbn [bind_result] in Hdf. unfold DataFrame in Hdf.
      destruct (Nat.eqb _ _); [discriminate|]. injection Hdf as <-. right; left; eauto.
    + rewrite Ha in Hdf. cbn [bind_result] in Hdf. injection Hdf as <-. left; eauto.
Qed.

Lemma pass_exceptions_witness :
  gene_input_of no_matrix_adata (choose_view ClinicalCondition idle) ∅
    ∈ var_names no_matrix_adata /\
  (draws_unless_no_matrix
     (fig_umap no_matrix_adata
        (gene_input_of no_matrix_adata (choose_view ClinicalCondition idle) ∅)
        (view_label (selected (choose_view ClinicalCondition idle)))) =
     Some (AttributeError "NoneType" "flatten") \/
   (exists t a, AttributeError "NoneType" "flatten" = AttributeError t a) \/
   (exists m, AttributeError "NoneType" "flatten" = ValueError m) \/
   (exists df, df_plot_of no_matrix_adata
                 (gene_input_of no_matrix_adata (choose_view ClinicalCondition idle) ∅) = Ok df /\
               draws_unless_no_matrix (fig_vio df) = Some (AttributeError "NoneType" "flatten"))).
Proof.
  refine (pass_exceptions draws_unless_no_matrix no_matrix_adata
            (choose_view ClinicalCondition idle) ∅
            (AttributeError "NoneType" "flatten") _).
  reflexivity.
Defined.

End TableFacts.

(* ================================================================== *)
(** * More on the cached loader and the whole script *)
(* ================================================================== *)

Module CacheFacts.
Import LoaderFacts.

Lemma load_data_retry p :
  resource_cache p = None ->
  fs p !! "ctcl_app_light.h5ad" = None ->
  load_data p =
  (Raise (FileNotFoundError "ctcl_app_light.h5ad"),
   {| fs := fs p; resource_cache := None; next_id := next_id p;
      io_log := io_log p ++ [ReadFile "ctcl_app_light.h5ad"] |}).
Proof.
  intros Hc Hf. unfold load_data, cache_resource, bind, read_h5ad, ret.
  now rewrite Hc, Hf.
Qed.

(** X18. Once a handle is cached the file is never consulted again: on any
    later state of the file system (file removed, replaced or damaged) the
    loader returns the cached handle and neither reads nor changes
    anything. *)
Theorem cache_outlives_file (p : process) (h : handle)
    (files : gmap string file) (n : nat) :
  resource_cache p = Some h ->
  load_many n (with_fs files p) = (replicate n (Ok h), with_fs files p).
Proof.
  intros Hc. apply load_many_hit. exact Hc.
Qed.

Lemma cache_outlives_file_witness :
  load_many 2 (with_fs ∅ (snd (load_data fresh_process))) =
  (replicate 2 (Ok {| obj_id := 0; content := sample_adata |}),
   with_fs ∅ (snd (load_data fresh_process))).
Proof.
  refine (cache_outlives_file (snd (load_data fresh_process))
            {| obj_id := 0; content := sample_adata |} ∅ 2 _).
  reflexivity.
Defined.

(** X19. A load that fails is not cached: while the input file is missing,
    each of [n] invocations raises the file-not-found error and reads
    again, and the cache stays empty. *)
Theorem failed_load_not_cached (n : nat) (p : process) :
  resource_cache p = None ->
  fs p !! "ctcl_app_light.h5ad" = None ->
  fst (load_many n p) =
    replicate n (Raise (FileNotFoundError "ctcl_app_light.h5ad")) /\
  io_log (snd (load_many n p)) =
    io_log p ++ replicate n (ReadFile "ctcl_app_light.h5ad") /\
  resource_cache (snd (load_many n p)) = None /\
  next_id (snd (load_many n p)) = next_id p.
Proof.
  revert p. induction n as [|n IH]; intros p Hc Hf.
  - cbn. rewrite app_nil_r. repeat split; assumption.
  - cbn [load_many]. rewrite (load_data_retry _ Hc Hf).
    specialize (IH {| fs := fs p; resource_cache := None; next_id := next_id p;
                      io_log := io_log p ++ [ReadFile "ctcl_app_light.h5ad"] |}
                   eq_refl Hf).
    destruct (load_many n _) as [rs p'']. cbn in *.
    destruct IH as (-> & -> & -> & ->).
    rewrite <- app_assoc. repeat split.
Qed.

Lemma failed_load_not_cached_witness :
  fst (load_many 3 empty_process) =
    replicate 3 (Raise (FileNotFoundError "ctcl_app_light.h5ad")) /\
  io_log (snd (load_many 3 empty_process)) =
    io_log empty_process ++ replicate 3 (ReadFile "ctcl_app_light.h5ad") /\
  resource_cache (snd (load_many 3 empty_process)) = None /\
  next_id (snd (load_many 3 empty_process)) = next_id empty_process.
Proof.
  refine (failed_load_not_cached 3 empty_process _ _); reflexivity.
Defined.

(** X20. Two runs of the script in one process, on whatever interactions
    and sessions, render over the same dataset content; the first run
    reads the file once and the second run leaves the process untouched. *)
Theorem reruns_share_dataset (lib : drawing) (p : process) (a : AnnData)
    (ui1 ui2 : interaction) (s1 s2 : gmap string string) :
  resource_cache p = None ->
  fs p !! "ctcl_app_light.h5ad" = Some (H5ad a) ->
  fst (app lib ui1 s1 p) = Ok (render lib a ui1 s1) /\
  io_log (snd (app lib ui1 s1 p)) = io_log p ++ [ReadFile "ctcl_app_light.h5ad"] /\
  app lib ui2 s2 (snd (app lib ui1 s1 p)) = (Ok (render lib a ui2 s2), snd (app lib ui1 s1 p)).
Proof.
  intros Hc Hf.
  assert (H1 : app lib ui1 s1 p =
               (Ok (render lib a ui1 s1),
                {| fs := fs p;
                   resource_cache := Some {| obj_id := next_id p; content := a |};
                   next_id := S (next_id p);
                   io_log := io_log p ++ [ReadFile "ctcl_app_light.h5ad"] |})).
  { unfold app. now rewrite (load_data_miss _ _ Hc Hf). }
  rewrite H1. cbn [fst snd io_log].
  split; [reflexivity|]. split; [reflexivity|].
  unfold app.
  rewrite (load_data_hit _ {| obj_id := next_id p; content := a |}) by reflexivity.
  reflexivity.
Qed.

Lemma reruns_share_dataset_witness :
  fst (app draws_unless_no_matrix idle ∅ fresh_process) = Ok (render draws_unless_no_matrix sample_adata idle ∅) /\
  io_log (snd (app draws_unless_no_matrix idle ∅ fresh_process)) =
    io_log fresh_process ++ [ReadFile "ctcl_app_light.h5ad"] /\
  app draws_unless_no_matrix (type_text "cd3e" idle) ∅ (snd (app draws_unless_no_matrix idle ∅ fresh_process)) =
    (Ok (render draws_unless_no_matrix sample_adata (type_text "cd3e" idle) ∅), snd (app draws_unless_no_matrix idle ∅ fresh_process)).
Proof.
  refine (reruns_share_dataset draws_unless_no_matrix fresh_process sample_adata idle
            (type_text "cd3e" idle) ∅ ∅ _ _); reflexivity.
Defined.

End CacheFacts.

(* ================================================================== *)
(** * Extraction from a sparse matrix *)
(* ================================================================== *)

Module SparseFacts.
Import ExtractionFacts TableFacts.





End SparseFacts.
